(** * rm2_linux: the Wacom I2C pen driver and the SY7636A power-rail driver

    A shallow embedding of the hardware-facing logic of two drivers of the
    tree: the interrupt handler and the capability query of the Wacom EMR
    digitizer, and the regulator and MFD parts of the Silergy SY7636A
    e-paper power supply.  Bus transfers, the power-good line and the
    jiffies counter are inputs supplied by the environment; the calls made
    into the input core, into the kernel log and to the sleep primitives
    are recorded as outputs. *)

From Stdlib Require Import ZArith List Bool Lia String Ascii.
From Stdlib Require Import Strings.Byte.
From Stdlib Require Import DecimalString.
Import ListNotations.
Local Open Scope Z_scope.

(** ** C integer conversions used by both drivers *)

(** Conversion to [unsigned int] (32 bits on every Linux target). *)
Definition to_uint (v : Z) : Z := v mod 2 ^ 32.

(** Conversion to [int] (32 bits, two's complement). *)
Definition to_int (v : Z) : Z :=
  let w := v mod 2 ^ 32 in
  if 2 ^ 31 <=? w then w - 2 ^ 32 else w.

(** Conversion of an integer to [short] (16 bits, two's complement). *)
Definition to_short (v : Z) : Z :=
  let w := v mod 2 ^ 16 in
  if 2 ^ 15 <=? w then w - 2 ^ 16 else w.

(** Conversion of an integer to plain [char].  The signedness of plain
    [char] is fixed by the ABI: unsigned on ARM, the architecture of the
    reMarkable 2 this tree is built for, signed on x86. *)
Definition to_char (char_is_signed : bool) (v : Z) : Z :=
  let w := v mod 2 ^ 8 in
  if char_is_signed && (2 ^ 7 <=? w) then w - 2 ^ 8 else w.

(** Modelled from the spec: the error codes the drivers return, with the
    values of include/uapi/asm-generic/errno{-base,}.h, which are not
    among the sources. *)
Definition EIO : Z := 5.
Definition EINVAL : Z := 22.
Definition ETIME : Z := 62.

(** ** The Wacom I2C digitizer *)

Module Wacom.

Definition WACOM_QUERY_SIZE : nat := 22.

(** [data[i]] of a [u8] array, as the integer it promotes to. *)
Definition u8_at (data : list byte) (i : nat) : Z :=
  Z.of_N (Byte.to_N (nth i data x00)).

(** Modelled from the spec: [get_unaligned_le16(&data[i])] and
    [le16_to_cpup], the kernel's readers of a 2-byte little-endian
    field. *)
Definition get_unaligned_le16 (data : list byte) (i : nat) : Z :=
  Z.lor (u8_at data i) (Z.shiftl (u8_at data (S i)) 8).

Record wacom_features := mk_features {
  x_max : Z;
  y_max : Z;
  pressure_max : Z;
  distance_max : Z;
  distance_physical_max : Z;
  tilt_x_max : Z;
  tilt_y_max : Z;
  fw_version : Z            (* char *)
}.

(** [struct wacom_features features = { 0 }] of the probe routine. *)
Definition features_zero : wacom_features := mk_features 0 0 0 0 0 0 0 0.

(** [wacom_query_device].  [xfer] is what [i2c_transfer] did with the two
    messages: its return value and the bytes the read message left in
    [data].  The routine fills [features] in place and returns 0, or
    returns the error without touching [features]. *)
Definition wacom_query_device (char_is_signed : bool)
    (xfer : Z * list byte) (features : wacom_features)
  : Z * wacom_features :=
  let '(ret, data) := xfer in
  if ret <? 0 then (ret, features)
  else if negb (ret =? 2) then (- EIO, features)
  else
    (0, {| x_max := get_unaligned_le16 data 3;
           y_max := get_unaligned_le16 data 5;
           pressure_max := get_unaligned_le16 data 11;
           fw_version := to_char char_is_signed (get_unaligned_le16 data 13);
           distance_max := u8_at data 15;
           distance_physical_max := u8_at data 16;
           tilt_x_max := get_unaligned_le16 data 17;
           tilt_y_max := get_unaligned_le16 data 19 |}).

(** Key and axis codes the driver reports.  [KEY_RESERVED] is code 0, the
    value [tool] has after [kzalloc]. *)
Inductive key_code :=
  | KEY_RESERVED | BTN_TOOL_PEN | BTN_TOOL_RUBBER
  | BTN_TOUCH | BTN_STYLUS | BTN_STYLUS2.

Inductive abs_code :=
  | ABS_X | ABS_Y | ABS_PRESSURE | ABS_DISTANCE | ABS_TILT_X | ABS_TILT_Y.

(** Modelled from the spec: the calls into the input core, the event sink
    of the pen path, recorded as they are made: [input_report_key] (which
    hands on [!!value]), [input_report_abs] and [input_sync]. *)
Inductive input_event :=
  | EV_KEY (code : key_code) (value : bool)
  | EV_ABS (code : abs_code) (value : Z)
  | EV_SYN.

Definition input_report_key (code : key_code) (value : Z) : input_event :=
  EV_KEY code (negb (value =? 0)).

Definition input_report_abs (code : abs_code) (value : Z) : input_event :=
  EV_ABS code value.

(** The fields of [struct wacom_i2c] the handler reads and writes. *)
Record wacom_i2c := mk_wac {
  data : list byte;         (* u8 data[WACOM_QUERY_SIZE] *)
  prox : bool;
  tool : key_code           (* int *)
}.

(** The device structure as [kzalloc] leaves it. *)
Definition wac_zero : wacom_i2c :=
  mk_wac (repeat x00 WACOM_QUERY_SIZE) false KEY_RESERVED.

(** What the bus does on one [i2c_master_recv]: it fails with a negative
    errno, or it delivers bytes. *)
Inductive i2c_rx :=
  | RxFail (errno : positive)
  | RxData (bytes : list byte).

(** Modelled from the spec: [i2c_master_recv(client, buf, count)], the raw
    block read of the register bus.  The bytes received overwrite the
    start of [buf], never more than [count] of them, and their number is
    returned; on failure the negative errno is returned. *)
Definition i2c_master_recv (buf : list byte) (count : nat) (rx : i2c_rx)
  : Z * list byte :=
  match rx with
  | RxFail e => (Z.neg e, buf)
  | RxData bytes =>
      let got := firstn count bytes in
      (Z.of_nat (List.length got), got ++ skipn (List.length got) buf)
  end.

Definition bool_to_int (b : bool) : Z := if b then 1 else 0.

(** [wacom_i2c_irq]: the new device state and the calls made into the
    input core, in order. *)
Definition wacom_i2c_irq (wac_i2c : wacom_i2c) (rx : i2c_rx)
  : wacom_i2c * list input_event :=
  let '(error, data) :=
    i2c_master_recv wac_i2c.(data) WACOM_QUERY_SIZE rx in
  if error <? 0 then (wac_i2c, [])
  else
    let tsw := Z.land (u8_at data 3) 0x01 in
    let ers := Z.land (u8_at data 3) 0x04 in
    let f1 := Z.land (u8_at data 3) 0x02 in
    let f2 := Z.land (u8_at data 3) 0x10 in
    let x := get_unaligned_le16 data 4 in
    let y := get_unaligned_le16 data 6 in
    let pressure := get_unaligned_le16 data 8 in
    let distance := to_short (u8_at data 10) in
    let tilt_x := to_short (get_unaligned_le16 data 11) in
    let tilt_y := to_short (get_unaligned_le16 data 13) in
    let tool' :=
      if negb wac_i2c.(prox)
      then (if negb (Z.land (u8_at data 3) 0x0c =? 0)
            then BTN_TOOL_RUBBER else BTN_TOOL_PEN)
      else wac_i2c.(tool) in
    let prox' := negb (Z.land (u8_at data 3) 0x20 =? 0) in
    ({| data := data; prox := prox'; tool := tool' |},
     [ input_report_key BTN_TOUCH
         (bool_to_int (negb (tsw =? 0) || negb (ers =? 0)));
       input_report_key tool' (bool_to_int prox');
       input_report_key BTN_STYLUS f1;
       input_report_key BTN_STYLUS2 f2;
       input_report_abs ABS_X x;
       input_report_abs ABS_Y y;
       input_report_abs ABS_PRESSURE pressure;
       input_report_abs ABS_DISTANCE distance;
       input_report_abs ABS_TILT_X tilt_x;
       input_report_abs ABS_TILT_Y tilt_y;
       EV_SYN ]).

(** The handler run over a sequence of interrupts: the final state and the
    batch of calls each interrupt produced. *)
Fixpoint irq_run (wac_i2c : wacom_i2c) (rxs : list i2c_rx)
  : wacom_i2c * list (list input_event) :=
  match rxs with
  | [] => (wac_i2c, [])
  | rx :: rest =>
      let '(w1, evs) := wacom_i2c_irq wac_i2c rx in
      let '(w2, batches) := irq_run w1 rest in
      (w2, evs :: batches)
  end.

(** The readings of one sample the tracker depends on. *)
Definition in_proximity (d : list byte) : bool :=
  negb (Z.land (u8_at d 3) 0x20 =? 0).

Definition raw_eraser (d : list byte) : bool :=
  negb (Z.land (u8_at d 3) 0x0c =? 0).

Definition classify (d : list byte) : key_code :=
  if raw_eraser d then BTN_TOOL_RUBBER else BTN_TOOL_PEN.

(** The tool a batch reports: code and value of its tool-in-proximity key
    event, the second call of the batch. *)
Definition reported_tool (evs : list input_event)
  : option (key_code * bool) :=
  match evs with
  | _ :: EV_KEY code value :: _ => Some (code, value)
  | _ => None
  end.

(** The buffer the handler decodes after a receive. *)
Definition received (wac_i2c : wacom_i2c) (rx : i2c_rx) : list byte :=
  snd (i2c_master_recv wac_i2c.(data) WACOM_QUERY_SIZE rx).

(** A full report whose status byte shows the given proximity, and the
    given raw eraser signal. *)
Definition sample_prox (p : bool) (b : list byte) : Prop :=
  List.length b = WACOM_QUERY_SIZE /\ in_proximity b = p.

Definition sample_is (p e : bool) (b : list byte) : Prop :=
  sample_prox p b /\ raw_eraser b = e.

(** A report with the given status byte, everything else zero. *)
Definition report (status : byte) : list byte :=
  [x00; x00; x00; status] ++ repeat x00 18.

(** *** The input device the probe routine sets up *)

(** Conversion to [__u16], the type of [input->id.version]. *)
Definition to_u16 (v : Z) : Z := v mod 2 ^ 16.

(** Modelled from the spec: [BUS_I2C] of include/uapi/linux/input.h. *)
Definition BUS_I2C : Z := 0x18.

(** One call of [input_set_abs_params(input, axis, min, max, fuzz, flat)]. *)
Record abs_params := mk_abs {
  axis : abs_code;
  absmin : Z;
  absmax : Z;
  absfuzz : Z;
  absflat : Z
}.

(** What the probe routine writes into the input device. *)
Record input_dev := mk_input {
  name : string;
  id_bustype : Z;
  id_vendor : Z;
  id_version : Z;           (* __u16 *)
  keybit : list key_code;
  absinfo : list abs_params
}.

(** The part of [wacom_i2c_probe] between the allocation of the input
    device and the request of the interrupt: the identity, the key bits
    and the axis ranges, all taken from the features the query returned.
    The negations are on [int].  Left out are the parent and the two
    callbacks, and [touchscreen_parse_properties], which is asked for the
    multi-touch position axes and so leaves these six alone. *)
Definition wacom_i2c_probe_input (features : wacom_features) : input_dev :=
  {| name := "Wacom I2C Digitizer"%string;
     id_bustype := BUS_I2C;
     id_vendor := 0x56a;
     id_version := to_u16 features.(fw_version);
     keybit := [BTN_TOOL_PEN; BTN_TOOL_RUBBER; BTN_STYLUS; BTN_STYLUS2;
                BTN_TOUCH];
     absinfo :=
       [ mk_abs ABS_X 0 features.(x_max) 0 0;
         mk_abs ABS_Y 0 features.(y_max) 0 0;
         mk_abs ABS_PRESSURE 0 features.(pressure_max) 0 0;
         mk_abs ABS_DISTANCE 0 features.(distance_max) 0 0;
         mk_abs ABS_TILT_X (to_int (- features.(tilt_x_max)))
                features.(tilt_x_max) 0 0;
         mk_abs ABS_TILT_Y (to_int (- features.(tilt_y_max)))
                features.(tilt_y_max) 0 0 ] |}.

(** *** Reading a batch *)

Definition key_code_eq_dec (a b : key_code) : {a = b} + {a <> b}.
Proof. decide equality. Defined.

Definition abs_code_eq_dec (a b : abs_code) : {a = b} + {a <> b}.
Proof. decide equality. Defined.

(** The value a batch reports for a key, and for an axis: that of the
    first such call in the batch. *)
Fixpoint reported_key (code : key_code) (evs : list input_event)
  : option bool :=
  match evs with
  | [] => None
  | EV_KEY c v :: rest =>
      if key_code_eq_dec c code then Some v else reported_key code rest
  | _ :: rest => reported_key code rest
  end.

Fixpoint reported_abs (code : abs_code) (evs : list input_event)
  : option Z :=
  match evs with
  | [] => None
  | EV_ABS c v :: rest =>
      if abs_code_eq_dec c code then Some v else reported_abs code rest
  | _ :: rest => reported_abs code rest
  end.

(** The tool keys the handler can latch. *)
Definition is_tool (k : key_code) : bool :=
  match k with
  | BTN_TOOL_PEN | BTN_TOOL_RUBBER => true
  | _ => false
  end.

(** *** Vocabulary of the run properties *)

(** The state the handler keeps well formed: a buffer of 22 bytes, and a
    latched tool key whenever the pen is in proximity. *)
Definition tracker_ok (wac : wacom_i2c) : Prop :=
  List.length (data wac) = WACOM_QUERY_SIZE /\
  (prox wac = true -> is_tool (tool wac) = true).

(** Whether the probe routine declared the key or the axis of a report. *)
Definition declared (dev : input_dev) (ev : input_event) : bool :=
  match ev with
  | EV_KEY c _ =>
      if in_dec key_code_eq_dec c (keybit dev) then true else false
  | EV_ABS a _ =>
      if in_dec abs_code_eq_dec a (map axis (absinfo dev)) then true
      else false
  | EV_SYN => true
  end.

End Wacom.

(** ** The SY7636A power supply: regulator and MFD drivers *)

Module Sy7636a.

(** The chip registers the two drivers touch (linux/mfd/sy7636a.h). *)
Inductive reg :=
  | SY7636A_REG_OPERATION_MODE_CRL
  | SY7636A_REG_VCOM_ADJUST_CTRL_L
  | SY7636A_REG_VCOM_ADJUST_CTRL_H
  | SY7636A_REG_POWER_ON_DELAY_TIME
  | SY7636A_REG_FAULT_FLAG.

Definition reg_eq_dec (a b : reg) : {a = b} + {a <> b}.
Proof. decide equality. Defined.

(** Modelled from the spec: the enable bit of the operation-mode register.
    linux/mfd/sy7636a.h, which defines the mask, is not among the sources;
    bit 7 is the rail on/off bit of the chip. *)
Definition SY7636A_OPERATION_MODE_CRL_ONOFF : Z := 0x80.

(** Modelled from the spec: [PAGE_SIZE], the size of a sysfs buffer. *)
Definition PAGE_SIZE : Z := 4096.

(** Modelled from the spec: [BITS_PER_LONG] of the 32-bit ARM target. *)
Definition BITS_PER_LONG : Z := 32.

(** Messages of the two drivers that reach the kernel log. *)
Inductive msg :=
  | Failed_to_read_pgood_gpio (pwr_good : Z)
  | Power_good_signal_timeout (elapsed : Z)
  | Power_good_OK (elapsed : Z) (waits : Z)
  | Failed_to_read_from_device
  | Unexpected_value_read_from_device (val : Z).

(** What a driver routine does to the outside, in order. *)
Inductive event :=
  | RegWrite (r : reg) (val : Z) (ret : Z)
  | RegUpdateBits (r : reg) (mask val : Z) (ret : Z)
  | Usleep (min max : Z)
  | DevErr (m : msg)
  | DevDbg (m : msg).

(** The chip and its surroundings.  [bus], [pgood_gpio] and [jiffies] hold
    what the next bus transactions, the next readings of the power-good
    line and the next readings of the jiffies counter will return; a list
    that has run out answers 0 (transfer done, line low). *)
Record world := mk_world {
  regs : reg -> Z;
  bus : list Z;
  pgood_gpio : list Z;
  jiffies : list Z;
  trace : list event
}.

(** Driver routines as state transformers over [world]. *)
Definition M (A : Type) : Type := world -> A * world.

Definition Return {A} (a : A) : M A := fun w => (a, w).

Definition Bind {A B} (m : M A) (f : A -> M B) : M B :=
  fun w => let '(a, w') := m w in f a w'.

Declare Scope drv_scope.
Delimit Scope drv_scope with drv.
Notation "x <- m ;; k" := (Bind m (fun x => k))
  (at level 61, m at next level, right associativity) : drv_scope.
Notation "' pat <- m ;; k" :=
  (Bind m (fun x => match x with pat => k end))
  (at level 61, pat pattern, m at next level, right associativity)
  : drv_scope.
Notation "m ;;; k" := (Bind m (fun _ => k))
  (at level 61, right associativity) : drv_scope.
Local Open Scope drv_scope.

Definition emit (e : event) : M unit :=
  fun w => (tt, mk_world w.(regs) w.(bus) w.(pgood_gpio) w.(jiffies)
                         (w.(trace) ++ [e])).

Definition next_bus : M Z :=
  fun w => (hd 0 w.(bus),
            mk_world w.(regs) (tl w.(bus)) w.(pgood_gpio) w.(jiffies)
                     w.(trace)).

(** The register file with register [r] set to [v]. *)
Definition upd (rs : reg -> Z) (r : reg) (v : Z) : reg -> Z :=
  fun r' => if reg_eq_dec r' r then v else rs r'.

Definition set_reg (r : reg) (v : Z) : M unit :=
  fun w => (tt, mk_world (upd w.(regs) r v)
                         w.(bus) w.(pgood_gpio) w.(jiffies) w.(trace)).

Definition get_reg (r : reg) : M Z := fun w => (w.(regs) r, w).

(** [sy7636a_regmap_config]: 8-bit register values. *)
Definition val_bits : Z := 8.
Definition val_mask : Z := Z.ones val_bits.

(** Modelled from the spec: the register bus of the power path, one bus
    transaction per call, which fails with the error code of the bus or
    goes through.

    [regmap_read(regmap, r, &val)]: the return value and what [val] holds
    afterwards (left alone, hence given back unchanged, on failure; the
    callers pass 0 for their uninitialised locals and never look at them
    after a failure). *)
Definition regmap_read (r : reg) (val : Z) : M (Z * Z) :=
  ret <- next_bus ;;
  if negb (ret =? 0) then Return (ret, val)
  else v <- get_reg r ;; Return (0, Z.land v val_mask).

(** Modelled from the spec: [regmap_write(regmap, r, val)]; the value is
    sent as one byte, so the register keeps [val_bits] bits of it. *)
Definition regmap_write (r : reg) (val : Z) : M Z :=
  ret <- next_bus ;;
  emit (RegWrite r val ret) ;;;
  if negb (ret =? 0) then Return ret
  else set_reg r (Z.land val val_mask) ;;; Return 0.

(** Modelled from the spec: [regmap_update_bits(regmap, r, mask, val)],
    the write that sets the bits of [mask] to those of [val]. *)
Definition regmap_update_bits (r : reg) (mask val : Z) : M Z :=
  ret <- next_bus ;;
  emit (RegUpdateBits r mask val ret) ;;;
  if negb (ret =? 0) then Return ret
  else
    orig <- get_reg r ;;
    set_reg r (Z.land (Z.lor (Z.land orig (Z.lnot mask)) (Z.land val mask))
                      val_mask) ;;;
    Return 0.

(** Modelled from the spec: the hardware enable and disable writes and
    the enabled query, which the regulator core's regmap helpers do on
    [desc.enable_reg] with [desc.enable_mask], as the driver's
    [struct regulator_desc] sets them. *)
Definition enable_reg : reg := SY7636A_REG_OPERATION_MODE_CRL.
Definition enable_mask : Z := SY7636A_OPERATION_MODE_CRL_ONOFF.

Definition regulator_enable_regmap : M Z :=
  regmap_update_bits enable_reg enable_mask enable_mask.

Definition regulator_disable_regmap : M Z :=
  regmap_update_bits enable_reg enable_mask 0.

Definition regulator_is_enabled_regmap : M Z :=
  '(ret, val) <- regmap_read enable_reg 0 ;;
  if negb (ret =? 0) then Return ret
  else Return (if negb (Z.land val enable_mask =? 0) then 1 else 0).

(** Modelled from the spec: the blocking read of the power-good input, the
    reading of the jiffies counter, the sleep and the kernel log. *)
Definition gpiod_get_value_cansleep : M Z :=
  fun w => (hd 0 w.(pgood_gpio),
            mk_world w.(regs) w.(bus) (tl w.(pgood_gpio)) w.(jiffies)
                     w.(trace)).

Definition read_jiffies : M Z :=
  fun w => (hd 0 w.(jiffies),
            mk_world w.(regs) w.(bus) w.(pgood_gpio) (tl w.(jiffies))
                     w.(trace)).

Definition usleep_range (min max : Z) : M unit := emit (Usleep min max).
Definition dev_err (m : msg) : M unit := emit (DevErr m).
Definition dev_dbg (m : msg) : M unit := emit (DevDbg m).

(** [t1 - t0] on [unsigned long]. *)
Definition ulong_sub (a b : Z) : Z := (a - b) mod 2 ^ BITS_PER_LONG.

(** *** drivers/regulator/sy7636a-regulator.c *)

Definition sy7636a_get_vcom_voltage_mv : M Z :=
  '(ret, val) <- regmap_read SY7636A_REG_VCOM_ADJUST_CTRL_L 0 ;;
  if negb (ret =? 0) then Return ret
  else
    '(ret, val_h) <- regmap_read SY7636A_REG_VCOM_ADJUST_CTRL_H 0 ;;
    if negb (ret =? 0) then Return ret
    else
      let val := Z.lor val (to_uint (Z.shiftl val_h 8)) in
      Return (to_int (to_uint (Z.land val 0x1FF * 10000))).

Definition sy7636a_get_vcom_voltage_op : M Z := sy7636a_get_vcom_voltage_mv.

Definition sy7636a_disable_regulator : M Z :=
  ret <- regulator_disable_regmap ;;
  usleep_range 30000 35000 ;;;
  Return ret.

Definition sy7636a_regulator_is_enabled : M Z := regulator_is_enabled_regmap.

Definition wait_time : nat := 500.

(** The polling loop of [sy7636a_get_status], with [budget] iterations
    left: the value the routine returns. *)
Fixpoint get_status_loop (budget : nat) (ret : Z) : M Z :=
  match budget with
  | O => Return ret
  | S budget' =>
      pwr_good <- gpiod_get_value_cansleep ;;
      if pwr_good <? 0 then
        dev_err (Failed_to_read_pgood_gpio pwr_good) ;;;
        Return pwr_good
      else if negb (pwr_good =? 0) then Return ret
      else usleep_range 1000 1500 ;;; get_status_loop budget' ret
  end.

Definition sy7636a_get_status : M Z := get_status_loop wait_time 0.

(** The polling loop of [sy7636a_enable_regulator_pgood], with [budget]
    iterations left: [inl ret] when it leaves through [goto finish],
    otherwise [pwr_good] and [wait_cnt] as they are after the loop. *)
Fixpoint enable_loop (budget : nat) (wait_cnt : Z) (pwr_good : Z)
  : M (Z + Z * Z) :=
  match budget with
  | O => Return (inr (pwr_good, wait_cnt))
  | S budget' =>
      pwr_good <- gpiod_get_value_cansleep ;;
      if pwr_good <? 0 then
        dev_err (Failed_to_read_pgood_gpio pwr_good) ;;;
        Return (inl pwr_good)
      else if negb (pwr_good =? 0) then Return (inr (pwr_good, wait_cnt))
      else usleep_range 1000 1500 ;;;
           enable_loop budget' (wait_cnt + 1) pwr_good
  end.

(** [sy7636a_enable_regulator_pgood].  The log messages carry the jiffies
    difference that [jiffies_to_msecs] turns into milliseconds. *)
Definition sy7636a_enable_regulator_pgood : M Z :=
  t0 <- read_jiffies ;;
  ret <- regulator_enable_regmap ;;
  if negb (ret =? 0) then Return ret
  else
    r <- enable_loop wait_time 0 0 ;;
    match r with
    | inl ret => Return ret
    | inr (pwr_good, wait_cnt) =>
        t1 <- read_jiffies ;;
        if pwr_good =? 0 then
          dev_err (Power_good_signal_timeout (ulong_sub t1 t0)) ;;;
          _ <- sy7636a_disable_regulator ;;
          Return (- ETIME)
        else
          dev_dbg (Power_good_OK (ulong_sub t1 t0) wait_cnt) ;;;
          Return ret
    end.

Definition sy7636a_regulator_init : M Z :=
  regmap_write SY7636A_REG_POWER_ON_DELAY_TIME 0x0.

(** *** The MFD driver of the chip *)

Definition states : list string :=
  [ "no fault event";
    "UVP at VP rail";
    "UVP at VN rail";
    "UVP at VPOS rail";
    "UVP at VNEG rail";
    "UVP at VDDH rail";
    "UVP at VEE rail";
    "SCP at VP rail";
    "SCP at VN rail";
    "SCP at VPOS rail";
    "SCP at VNEG rail";
    "SCP at VDDH rail";
    "SCP at VEE rail";
    "SCP at V COM rail";
    "UVLO";
    "Thermal shutdown" ]%string.

(** [ARRAY_SIZE(states)]. *)
Definition ARRAY_SIZE_states : Z := Z.of_nat (List.length states).

Definition newline : string := String "010"%char EmptyString.

(** Modelled from the spec: [snprintf] with the format of a string and a
    newline; the length the whole text has, and the text as it fits into
    [size - 1] characters. *)
Definition snprintf_line (size : Z) (s : string) : Z * string :=
  let out := (s ++ newline)%string in
  (Z.of_nat (String.length out), substring 0 (Z.to_nat (size - 1)) out).

Definition get_vcom_voltage_mv : M Z :=
  '(ret, val) <- regmap_read SY7636A_REG_VCOM_ADJUST_CTRL_L 0 ;;
  if negb (ret =? 0) then Return ret
  else
    '(ret, val_h) <- regmap_read SY7636A_REG_VCOM_ADJUST_CTRL_H 0 ;;
    if negb (ret =? 0) then Return ret
    else
      let val := Z.lor val (to_uint (Z.shiftl val_h 8)) in
      Return (to_int (to_uint (Z.land val 0x1FF * 10))).

(** [set_vcom_voltage_mv].  The parameter is an [unsigned int]: whatever
    the caller passes is converted on the way in. *)
Definition set_vcom_voltage_mv (vcom : Z) : M Z :=
  let vcom := to_uint vcom in
  if (vcom <? 0) || (5000 <? vcom) then Return (- EINVAL)
  else
    let val := Z.land (to_uint (vcom / 10)) 0x1ff in
    ret <- regmap_write SY7636A_REG_VCOM_ADJUST_CTRL_L val ;;
    if negb (ret =? 0) then Return ret
    else
      ret <- regmap_write SY7636A_REG_VCOM_ADJUST_CTRL_H (Z.shiftr val 8) ;;
      if negb (ret =? 0) then Return ret
      else Return 0.

(** [state_show]: the return value and the sysfs buffer afterwards. *)
Definition state_show (buf : string) : M (Z * string) :=
  '(ret, val) <- regmap_read SY7636A_REG_FAULT_FLAG 0 ;;
  if negb (ret =? 0) then
    dev_err Failed_to_read_from_device ;;;
    Return (ret, buf)
  else
    let val := Z.shiftr val 1 in
    if ARRAY_SIZE_states <=? val then
      dev_err (Unexpected_value_read_from_device val) ;;;
      Return (- EINVAL, buf)
    else
      Return (snprintf_line PAGE_SIZE (nth (Z.to_nat val) states ""%string)).

(** [powergood_show]. *)
Definition powergood_show (buf : string) : M (Z * string) :=
  '(ret, val) <- regmap_read SY7636A_REG_FAULT_FLAG 0 ;;
  if negb (ret =? 0) then
    dev_err Failed_to_read_from_device ;;;
    Return (ret, buf)
  else
    let val := Z.land val 0x01 in
    Return (snprintf_line PAGE_SIZE
              (if negb (val =? 0) then "ON"%string else "OFF"%string)).

(** [vcom_store] after [kstrtoint]: [parsed] is the return value of the
    parser and the [int] it produced. *)
Definition vcom_store (parsed : Z * Z) (count : Z) : M Z :=
  let '(ret, vcom) := parsed in
  if negb (ret =? 0) then Return ret
  else if (0 <? vcom) || (vcom <? -5000) then Return (- EINVAL)
  else
    ret <- set_vcom_voltage_mv (to_uint (- vcom)) ;;
    if negb (ret =? 0) then Return ret
    else Return count.

(** [vcom_show].  The text of [%d] is the decimal numeral of the
    standard library. *)
Definition format_d (v : Z) : string :=
  NilZero.string_of_int (Z.to_int v).

Definition vcom_show (buf : string) : M (Z * string) :=
  ret <- get_vcom_voltage_mv ;;
  if ret <? 0 then Return (ret, buf)
  else Return (snprintf_line PAGE_SIZE (format_d (to_int (- ret)))).

(** *** Vocabulary of the properties *)

(** The next [n] bus transactions go through. *)
Definition bus_ok (n : nat) (w : world) : Prop :=
  forall i, (i < n)%nat -> nth i w.(bus) 0 = 0.

(** The next [n] readings of the power-good line are low. *)
Definition pgood_low (n : nat) (w : world) : Prop :=
  forall i, (i < n)%nat -> nth i w.(pgood_gpio) 0 = 0.

(** None of the next [n] readings of the power-good line is an error. *)
Definition pgood_readable (n : nat) (w : world) : Prop :=
  forall i, (i < n)%nat -> 0 <= nth i w.(pgood_gpio) 0.

(** The 9-bit field the two VCOM registers hold, as both getters decode
    it: [(val | val_h << 8) & 0x1FF]. *)
Definition vcom_field (w : world) : Z :=
  Z.land (Z.lor (Z.land (w.(regs) SY7636A_REG_VCOM_ADJUST_CTRL_L) val_mask)
                (Z.shiftl
                   (Z.land (w.(regs) SY7636A_REG_VCOM_ADJUST_CTRL_H) val_mask)
                   8))
         0x1FF.

(** The byte a read of the fault-flag register yields. *)
Definition fault_flag (w : world) : Z :=
  Z.land (w.(regs) SY7636A_REG_FAULT_FLAG) val_mask.

(** Whether the rail is switched on in the operation-mode register. *)
Definition rail_on (w : world) : bool :=
  negb (Z.land (w.(regs) enable_reg) enable_mask =? 0).

(** Whether a log message tells both the elapsed time and the number of
    waits of a poll. *)
Definition tells_elapsed_and_waits (m : msg) : bool :=
  match m with
  | Power_good_OK _ _ => true
  | _ => false
  end.

Definition logs_elapsed_and_waits (e : event) : bool :=
  match e with
  | DevErr m | DevDbg m => tells_elapsed_and_waits m
  | _ => false
  end.

Definition is_disable_write (e : event) : bool :=
  match e with
  | RegUpdateBits SY7636A_REG_OPERATION_MODE_CRL mask val _ =>
      (mask =? enable_mask) && (val =? 0)
  | _ => false
  end.

(** What a routine that took [w] to [w'] did to the outside. *)
Definition since (w w' : world) : list event :=
  skipn (List.length w.(trace)) w'.(trace).

(** A chip with every register zero, a bus that works, a power-good line
    that stays low. *)
Definition idle_world : world := mk_world (fun _ => 0) [] [] [] [].

(** [idle_world] with the given register contents. *)
Definition world_with (l h flag : Z) : world :=
  mk_world (fun r => match r with
                     | SY7636A_REG_VCOM_ADJUST_CTRL_L => l
                     | SY7636A_REG_VCOM_ADJUST_CTRL_H => h
                     | SY7636A_REG_FAULT_FLAG => flag
                     | _ => 0
                     end) [] [] [] [].

(** The register file once the enable write went through. *)
Definition regs_on (w : world) : reg -> Z :=
  upd (regs w) enable_reg
      (Z.land (Z.lor (Z.land (regs w enable_reg) (Z.lnot enable_mask))
                     (Z.land enable_mask enable_mask)) val_mask).

(** Whether the line [vcom_show] prints for the field [n] fits the page
    untruncated. *)
Definition vcom_line_ok (n : nat) : bool :=
  let v := - (Z.of_nat n * 10) in
  let text := (format_d v ++ newline)%string in
  let '(len, out) := snprintf_line PAGE_SIZE (format_d (to_int v)) in
  (len =? Z.of_nat (String.length text)) && String.eqb out text.

End Sy7636a.

(** * Properties *)

Import Wacom Sy7636a.

(** ** Bytes and little-endian fields *)

Lemma u8_at_range (d : list byte) (i : nat) : 0 <= u8_at d i < 256.
Proof.
  unfold u8_at. pose proof (Byte.to_N_bounded (nth i d x00)). lia.
Qed.

Lemma lor_shiftl_8 (lo hi : Z) :
  0 <= lo < 256 -> 0 <= hi -> Z.lor lo (Z.shiftl hi 8) = lo + 256 * hi.
Proof.
  intros Hlo Hhi.
  assert (Hdisj : Z.land lo (Z.shiftl hi 8) = 0).
  { apply Z.bits_inj'. intros n Hn.
    rewrite Z.land_spec, Z.bits_0.
    destruct (Z.ltb_spec n 8) as [Hlt | Hge].
    - rewrite (Z.shiftl_spec_low hi 8 n Hlt). apply andb_false_r.
    - replace lo with (lo mod 2 ^ 8) by (apply Z.mod_small; lia).
      rewrite Z.mod_pow2_bits_high by lia. reflexivity. }
  rewrite <- Z.lxor_lor by exact Hdisj.
  rewrite <- Z.add_nocarry_lxor by exact Hdisj.
  rewrite Z.shiftl_mul_pow2 by lia. lia.
Qed.

Lemma get_unaligned_le16_eq (d : list byte) (i : nat) :
  get_unaligned_le16 d i = u8_at d i + 256 * u8_at d (S i).
Proof.
  unfold get_unaligned_le16.
  pose proof (u8_at_range d i). pose proof (u8_at_range d (S i)).
  apply lor_shiftl_8; lia.
Qed.

Lemma get_unaligned_le16_range (d : list byte) (i : nat) :
  0 <= get_unaligned_le16 d i < 65536.
Proof.
  rewrite get_unaligned_le16_eq.
  pose proof (u8_at_range d i). pose proof (u8_at_range d (S i)). lia.
Qed.

Lemma to_char_low_byte (sgn : bool) (v : Z) :
  to_char sgn v mod 256 = v mod 256.
Proof.
  unfold to_char. change (2 ^ 8) with 256. change (2 ^ 7) with 128.
  destruct (sgn && (128 <=? v mod 256)).
  - replace (v mod 256 - 256) with (v mod 256 + (-1) * 256) by lia.
    rewrite Z.mod_add by lia. apply Z.mod_mod. lia.
  - apply Z.mod_mod. lia.
Qed.

(** ** The capability query *)

(** C7. When the two-message transfer went through, [wacom_query_device]
    returns 0 and fills the features from the fixed little-endian offsets
    of the capability report: x_max at 3, y_max at 5, pressure_max at 11,
    distance_max at 15, distance_physical_max at 16, tilt_x_max at 17,
    tilt_y_max at 19.  The 16-bit field at offset 13 goes into the [char]
    field [fw_version], which keeps its low byte only: with the unsigned
    plain [char] of the ARM build [fw_version] is the field modulo 256,
    that is the byte at offset 13, and whatever the signedness of [char]
    it agrees with the field modulo 256. *)
Theorem query_device_fw_version_low_byte
    (sgn : bool) (d : list byte) (f0 : wacom_features) :
  List.length d = 21%nat ->
  let f := snd (wacom_query_device sgn (2, d) f0) in
  let field13 := u8_at d 13 + 256 * u8_at d 14 in
  fst (wacom_query_device sgn (2, d) f0) = 0 /\
  x_max f = u8_at d 3 + 256 * u8_at d 4 /\
  y_max f = u8_at d 5 + 256 * u8_at d 6 /\
  pressure_max f = u8_at d 11 + 256 * u8_at d 12 /\
  distance_max f = u8_at d 15 /\
  distance_physical_max f = u8_at d 16 /\
  tilt_x_max f = u8_at d 17 + 256 * u8_at d 18 /\
  tilt_y_max f = u8_at d 19 + 256 * u8_at d 20 /\
  fw_version f mod 256 = field13 mod 256 /\
  (if sgn then -128 <= fw_version f < 128
   else fw_version f = field13 mod 256 /\ fw_version f = u8_at d 13).
Proof.
  intros _ f field13. subst f field13. cbn [wacom_query_device fst snd].
  change (2 <? 0) with false. change (negb (2 =? 2)) with false.
  cbn [fst snd x_max y_max pressure_max distance_max distance_physical_max
       tilt_x_max tilt_y_max fw_version].
  rewrite !get_unaligned_le16_eq.
  pose proof (u8_at_range d 13) as H13. pose proof (u8_at_range d 14) as H14.
  repeat split; try reflexivity.
  - apply to_char_low_byte.
  - destruct sgn.
    + unfold to_char. change (2 ^ 8) with 256. change (2 ^ 7) with 128.
      cbn [andb].
      pose proof (Z.mod_pos_bound (u8_at d 13 + 256 * u8_at d 14) 256).
      destruct (Z.leb_spec 128 ((u8_at d 13 + 256 * u8_at d 14) mod 256)); lia.
    + unfold to_char. cbn [andb]. change (2 ^ 8) with 256. split.
      * reflexivity.
      * replace (u8_at d 13 + 256 * u8_at d 14)
          with (u8_at d 13 + u8_at d 14 * 256) by lia.
        rewrite Z.mod_add by lia. apply Z.mod_small. lia.
Qed.

Lemma query_device_fw_version_witness :
  let d := repeat x00 13 ++ [x34; x12] ++ repeat x00 6 in
  List.length d = 21%nat /\
  fw_version (snd (wacom_query_device false (2, d) features_zero)) = 0x34.
Proof.
  cbv zeta. split; [reflexivity |].
  pose proof (query_device_fw_version_low_byte false
                (repeat x00 13 ++ [x34; x12] ++ repeat x00 6)
                features_zero eq_refl) as H.
  cbv zeta in H. destruct H as (_ & _ & _ & _ & _ & _ & _ & _ & _ & _ & H).
  rewrite H. reflexivity.
Defined.

(** ** The interrupt handler *)

Lemma recv_data_not_negative (buf : list byte) (n : nat) (bytes : list byte) :
  (fst (i2c_master_recv buf n (RxData bytes)) <? 0) = false.
Proof.
  cbn [i2c_master_recv fst]. apply Z.ltb_ge. apply Nat2Z.is_nonneg.
Qed.

(** One interrupt whose receive delivered bytes, spelled out. *)
Lemma irq_data (wac : wacom_i2c) (bytes : list byte) :
  wacom_i2c_irq wac (RxData bytes) =
  let d := received wac (RxData bytes) in
  let tool' := if prox wac then tool wac else classify d in
  ({| data := d; prox := in_proximity d; tool := tool' |},
   [ input_report_key BTN_TOUCH
       (bool_to_int (negb (Z.land (u8_at d 3) 0x01 =? 0)
                     || negb (Z.land (u8_at d 3) 0x04 =? 0)));
     input_report_key tool' (bool_to_int (in_proximity d));
     input_report_key BTN_STYLUS (Z.land (u8_at d 3) 0x02);
     input_report_key BTN_STYLUS2 (Z.land (u8_at d 3) 0x10);
     input_report_abs ABS_X (get_unaligned_le16 d 4);
     input_report_abs ABS_Y (get_unaligned_le16 d 6);
     input_report_abs ABS_PRESSURE (get_unaligned_le16 d 8);
     input_report_abs ABS_DISTANCE (to_short (u8_at d 10));
     input_report_abs ABS_TILT_X (to_short (get_unaligned_le16 d 11));
     input_report_abs ABS_TILT_Y (to_short (get_unaligned_le16 d 13));
     EV_SYN ]).
Proof.
  unfold wacom_i2c_irq, received.
  pose proof (recv_data_not_negative (data wac) WACOM_QUERY_SIZE bytes) as Hge.
  destruct (i2c_master_recv (data wac) WACOM_QUERY_SIZE (RxData bytes))
    as [error d] eqn:Hrecv.
  cbn [fst snd] in *. rewrite Hge. cbv zeta.
  unfold classify, raw_eraser, in_proximity.
  destruct (prox wac); reflexivity.
Qed.

Lemma irq_fail (wac : wacom_i2c) (e : positive) :
  wacom_i2c_irq wac (RxFail e) = (wac, []).
Proof. reflexivity. Qed.

Lemma bool_to_int_key (code : key_code) (b : bool) :
  input_report_key code (bool_to_int b) = EV_KEY code b.
Proof. destruct b; reflexivity. Qed.

(** A full report replaces the whole buffer. *)
Lemma received_full (wac : wacom_i2c) (b : list byte) :
  List.length b = WACOM_QUERY_SIZE ->
  List.length (data wac) = WACOM_QUERY_SIZE ->
  received wac (RxData b) = b.
Proof.
  intros Hb Hw. unfold received. cbn [i2c_master_recv snd].
  rewrite <- Hb, firstn_all.
  rewrite Hb, <- Hw, skipn_all. apply app_nil_r.
Qed.

Lemma received_length (wac : wacom_i2c) (rx : i2c_rx) :
  List.length (data wac) = WACOM_QUERY_SIZE ->
  List.length (received wac rx) = WACOM_QUERY_SIZE.
Proof.
  intros Hw. unfold received.
  destruct rx as [e | bytes]; cbn [i2c_master_recv snd].
  - exact Hw.
  - rewrite length_app, length_skipn, length_firstn, Hw. lia.
Qed.

(** C1, as the code has it.  On every sample the handler decodes, [tool]
    is set from the raw eraser signal of the sample exactly when [prox]
    was false before it, whether or not the sample itself is in
    proximity, and is left alone, whatever the raw signal, when [prox]
    was true; [prox] then becomes the proximity bit of the sample, and
    the tool key is reported with that tool and that proximity. *)
Theorem irq_latches_tool_when_prox_was_false
    (wac : wacom_i2c) (bytes : list byte) :
  let d := received wac (RxData bytes) in
  let wac' := fst (wacom_i2c_irq wac (RxData bytes)) in
  tool wac' = (if prox wac then tool wac else classify d) /\
  prox wac' = in_proximity d /\
  reported_tool (snd (wacom_i2c_irq wac (RxData bytes)))
    = Some (tool wac', prox wac').
Proof.
  cbv zeta. rewrite irq_data. cbv zeta. cbn [fst snd tool prox reported_tool].
  rewrite bool_to_int_key. repeat split.
Qed.

(** C1 as the specification words it fails: after one idle report the
    tracker is out of proximity with the pen latched, and a report that
    is still out of proximity but has the eraser bit set moves [tool] to
    the rubber, where the specification keeps it unchanged. *)
Lemma tool_latch_not_only_on_rising_edge :
  ~ (forall (wac : wacom_i2c) (bytes : list byte),
       let d := received wac (RxData bytes) in
       let wac' := fst (wacom_i2c_irq wac (RxData bytes)) in
       tool wac' = (if negb (prox wac) && in_proximity d
                    then classify d else tool wac) /\
       prox wac' = in_proximity d).
Proof.
  intros H.
  specialize (H (fst (wacom_i2c_irq wac_zero (RxData (report x00))))
                (report x04)).
  cbv zeta in H. destruct H as [Htool _].
  vm_compute in Htool. discriminate Htool.
Qed.

(** The same run, evaluated. *)
Example tool_latch_out_of_proximity_run :
  let wac := fst (wacom_i2c_irq wac_zero (RxData (report x00))) in
  let wac' := fst (wacom_i2c_irq wac (RxData (report x04))) in
  (prox wac, tool wac) = (false, BTN_TOOL_PEN) /\
  in_proximity (report x04) = false /\
  (prox wac', tool wac') = (false, BTN_TOOL_RUBBER).
Proof. vm_compute. repeat split. Qed.

(** C2, as the code has it.  The handler checks nothing but the sign of
    what [i2c_master_recv] returns: a receive that fails leaves the device
    structure as it was and reports nothing, and every receive that
    delivers bytes, however few, is decoded from the 22-byte buffer and
    reports the whole batch, ten updates closed by the sync, with [prox]
    taken from the buffer.  So nothing is reported exactly when the
    receive failed. *)
Theorem irq_skips_only_failed_receives (wac : wacom_i2c) :
  (forall e : positive, wacom_i2c_irq wac (RxFail e) = (wac, [])) /\
  (forall bytes : list byte,
     let out := wacom_i2c_irq wac (RxData bytes) in
     List.length (snd out) = 11%nat /\
     last (snd out) (EV_ABS ABS_X 0) = EV_SYN /\
     prox (fst out) = in_proximity (received wac (RxData bytes))) /\
  (forall rx : i2c_rx,
     snd (wacom_i2c_irq wac rx) = [] <-> exists e, rx = RxFail e).
Proof.
  split; [| split].
  - intros e. apply irq_fail.
  - intros bytes. cbv zeta. rewrite irq_data. cbv zeta. cbn [fst snd prox].
    repeat split.
  - intros [e | bytes]; split.
    + intros _. exists e. reflexivity.
    + intros _. rewrite irq_fail. reflexivity.
    + rewrite irq_data. cbv zeta. cbn [snd]. discriminate.
    + intros [e He]. discriminate He.
Qed.

(** C2 as the specification words it fails: after one full report in
    proximity, a receive that returns 0 bytes leaves the stale report in
    the buffer, and the handler decodes and reports it once more. *)
Lemma short_receive_is_decoded :
  ~ (forall (wac : wacom_i2c) (bytes : list byte),
       (List.length bytes < 15)%nat ->
       let out := wacom_i2c_irq wac (RxData bytes) in
       snd out = [] /\
       prox (fst out) = prox wac /\ tool (fst out) = tool wac).
Proof.
  intros H.
  assert (Hshort : (@List.length byte [] < 15)%nat)
    by (cbn [List.length]; lia).
  destruct (H (fst (wacom_i2c_irq wac_zero (RxData (report x24)))) []
              Hshort) as (Hnone & _).
  vm_compute in Hnone. discriminate Hnone.
Qed.

(** Short receives, evaluated: the empty receive over the stale report,
    and four bytes received into the zeroed buffer, the fourth with the
    proximity and eraser bits set. *)
Example short_receive_runs :
  let wac := fst (wacom_i2c_irq wac_zero (RxData (report x24))) in
  let stale := wacom_i2c_irq wac (RxData []) in
  let four := wacom_i2c_irq wac_zero (RxData [x00; x00; x00; x24]) in
  reported_tool (snd stale) = Some (BTN_TOOL_RUBBER, true) /\
  List.length (snd stale) = 11%nat /\
  (prox (fst four), tool (fst four)) = (true, BTN_TOOL_RUBBER) /\
  reported_tool (snd four) = Some (BTN_TOOL_RUBBER, true).
Proof. vm_compute. repeat split. Qed.

(** ** Proximity sessions *)

Lemma run_step (wac : wacom_i2c) (b : list byte) (rest : list i2c_rx) :
  List.length (data wac) = WACOM_QUERY_SIZE ->
  List.length b = WACOM_QUERY_SIZE ->
  let tool' := if prox wac then tool wac else classify b in
  map reported_tool (snd (irq_run wac (RxData b :: rest))) =
  Some (tool', in_proximity b)
  :: map reported_tool (snd (irq_run (mk_wac b (in_proximity b) tool') rest)).
Proof.
  intros Hw Hb. cbv zeta. cbn [irq_run].
  rewrite irq_data. cbv zeta. rewrite (received_full wac b Hb Hw).
  destruct (irq_run _ rest) as [w2 batches].
  cbn [snd map reported_tool]. rewrite bool_to_int_key. reflexivity.
Qed.

Lemma classify_eraser (b : list byte) (e : bool) :
  raw_eraser b = e ->
  classify b = if e then BTN_TOOL_RUBBER else BTN_TOOL_PEN.
Proof. intros <-. reflexivity. Qed.

Ltac run_sample Hs :=
  let Hlen := fresh "Hlen" in
  let Hp := fresh "Hp" in
  first [ destruct Hs as [[Hlen Hp] Hs] | destruct Hs as [Hlen Hp] ];
  rewrite run_step
    by (cbn [data]; first [ exact Hlen | assumption | reflexivity ]);
  cbv zeta; cbn [prox tool]; rewrite ?Hp;
  try (rewrite (classify_eraser _ _ Hs)).

(** C5. From the zeroed device structure, the reports out of proximity,
    in proximity with the eraser signal, in proximity without it, in
    proximity with it again, out of proximity, make the handler report the
    rubber for all three reports in proximity (and release the rubber on
    the last); and the reports out of proximity, in proximity without the
    eraser signal, out of proximity, in proximity with the eraser signal,
    make it report the pen for the first session and the rubber for the
    second. *)
Theorem tool_latch_sequences (a1 a2 a3 a4 a5 b1 b2 b3 b4 : list byte) :
  sample_prox false a1 -> sample_is true true a2 ->
  sample_is true false a3 -> sample_is true true a4 ->
  sample_prox false a5 ->
  sample_prox false b1 -> sample_is true false b2 ->
  sample_prox false b3 -> sample_is true true b4 ->
  map reported_tool
      (snd (irq_run wac_zero (map RxData [a1; a2; a3; a4; a5]))) =
    [ Some (classify a1, false);
      Some (BTN_TOOL_RUBBER, true);
      Some (BTN_TOOL_RUBBER, true);
      Some (BTN_TOOL_RUBBER, true);
      Some (BTN_TOOL_RUBBER, false) ] /\
  map reported_tool
      (snd (irq_run wac_zero (map RxData [b1; b2; b3; b4]))) =
    [ Some (classify b1, false);
      Some (BTN_TOOL_PEN, true);
      Some (BTN_TOOL_PEN, false);
      Some (BTN_TOOL_RUBBER, true) ].
Proof.
  intros A1 A2 A3 A4 A5 B1 B2 B3 B4. cbn [map]. split.
  - run_sample A1. run_sample A2. run_sample A3. run_sample A4.
    run_sample A5. reflexivity.
  - run_sample B1. run_sample B2. run_sample B3. run_sample B4.
    reflexivity.
Qed.

Lemma tool_latch_sequences_witness :
  map reported_tool
      (snd (irq_run wac_zero
              (map RxData [report x00; report x24; report x20;
                           report x24; report x00]))) =
    [ Some (classify (report x00), false);
      Some (BTN_TOOL_RUBBER, true);
      Some (BTN_TOOL_RUBBER, true);
      Some (BTN_TOOL_RUBBER, true);
      Some (BTN_TOOL_RUBBER, false) ] /\
  map reported_tool
      (snd (irq_run wac_zero
              (map RxData [report x10; report x20; report x00;
                           report x28]))) =
    [ Some (classify (report x10), false);
      Some (BTN_TOOL_PEN, true);
      Some (BTN_TOOL_PEN, false);
      Some (BTN_TOOL_RUBBER, true) ].
Proof.
  apply tool_latch_sequences; repeat split; reflexivity.
Defined.

(** ** The register bus *)

Local Open Scope drv_scope.

Lemma bus_ok_hd (n : nat) (w : world) : bus_ok (S n) w -> hd 0 (bus w) = 0.
Proof.
  intros H. specialize (H 0%nat (Nat.lt_0_succ n)).
  destruct (bus w); exact H.
Qed.

Lemma bus_ok_tl (n : nat) (w : world) (rs : reg -> Z) (tr : list event) :
  bus_ok (S n) w ->
  bus_ok n (mk_world rs (tl (bus w)) (pgood_gpio w) (jiffies w) tr).
Proof.
  intros H i Hi. cbn [bus].
  specialize (H (S i) (proj1 (Nat.succ_lt_mono i n) Hi)).
  destruct (bus w) as [| b l]; [destruct i; reflexivity | exact H].
Qed.

Lemma bus_ok_weaken (n m : nat) (w : world) :
  (m <= n)%nat -> bus_ok n w -> bus_ok m w.
Proof. intros Hle H i Hi. apply H. lia. Qed.

Lemma regmap_read_ok (n : nat) (r : reg) (v0 : Z) (w : world) :
  bus_ok (S n) w ->
  regmap_read r v0 w =
  ((0, Z.land (regs w r) val_mask),
   mk_world (regs w) (tl (bus w)) (pgood_gpio w) (jiffies w) (trace w)).
Proof.
  intros H. unfold regmap_read, Bind, next_bus, get_reg, Return.
  rewrite (bus_ok_hd n w H). reflexivity.
Qed.

Lemma regmap_write_ok (n : nat) (r : reg) (v : Z) (w : world) :
  bus_ok (S n) w ->
  regmap_write r v w =
  (0, mk_world (fun r' => if reg_eq_dec r' r then Z.land v val_mask
                          else regs w r')
               (tl (bus w)) (pgood_gpio w) (jiffies w)
               (trace w ++ [RegWrite r v 0])).
Proof.
  intros H. unfold regmap_write, Bind, next_bus, emit, set_reg, Return.
  rewrite (bus_ok_hd n w H). reflexivity.
Qed.

(** ** The 9-bit VCOM encoding *)

Lemma val_mask_eq : val_mask = 255.
Proof. reflexivity. Qed.

Lemma land_255 (v : Z) : Z.land v 255 = v mod 256.
Proof. change 255 with (Z.ones 8). apply Z.land_ones. lia. Qed.

Lemma land_1ff (v : Z) : Z.land v 0x1FF = v mod 512.
Proof. change 0x1FF with (Z.ones 9). apply Z.land_ones. lia. Qed.

Lemma to_uint_small (v : Z) : 0 <= v < 2 ^ 32 -> to_uint v = v.
Proof. intros H. apply Z.mod_small. exact H. Qed.

Lemma to_int_small (v : Z) : 0 <= v < 2 ^ 31 -> to_int v = v.
Proof.
  intros H. unfold to_int. rewrite Z.mod_small by lia.
  destruct (Z.leb_spec (2 ^ 31) v); [lia | reflexivity].
Qed.

Lemma vcom_field_range (w : world) : 0 <= vcom_field w < 512.
Proof.
  unfold vcom_field. rewrite land_1ff. apply Z.mod_pos_bound. lia.
Qed.

(** Both getters read the same field; they differ in the factor. *)
Lemma getter_decodes (factor : Z) (w : world) :
  0 < factor <= 10000 ->
  bus_ok 2 w ->
  ('(ret, val) <- regmap_read SY7636A_REG_VCOM_ADJUST_CTRL_L 0 ;;
   if negb (ret =? 0) then Return ret
   else
     '(ret, val_h) <- regmap_read SY7636A_REG_VCOM_ADJUST_CTRL_H 0 ;;
     if negb (ret =? 0) then Return ret
     else
       let val := Z.lor val (to_uint (Z.shiftl val_h 8)) in
       Return (to_int (to_uint (Z.land val 0x1FF * factor)))) w
  = (vcom_field w * factor,
     mk_world (regs w) (tl (tl (bus w))) (pgood_gpio w) (jiffies w) (trace w)).
Proof.
  intros Hf H. unfold Bind at 1. rewrite (regmap_read_ok 1 _ _ w H).
  change (negb (0 =? 0)) with false. cbv iota beta.
  unfold Bind at 1.
  rewrite (regmap_read_ok 0 _ _ _ (bus_ok_tl 1 w (regs w) (trace w) H)).
  change (negb (0 =? 0)) with false. cbv iota beta zeta.
  cbn [regs bus pgood_gpio jiffies trace]. unfold Return. f_equal.
  set (h := Z.land (regs w SY7636A_REG_VCOM_ADJUST_CTRL_H) val_mask).
  assert (Hh : 0 <= h < 256).
  { subst h. rewrite val_mask_eq, land_255. apply Z.mod_pos_bound. lia. }
  rewrite (to_uint_small (Z.shiftl h 8)).
  2:{ rewrite Z.shiftl_mul_pow2 by lia.
      change (2 ^ 8) with 256. change (2 ^ 32) with 4294967296. lia. }
  subst h. fold (vcom_field w). pose proof (vcom_field_range w) as Hv.
  rewrite to_uint_small by (change (2 ^ 32) with 4294967296; nia).
  apply to_int_small. change (2 ^ 31) with 2147483648. nia.
Qed.

Lemma bus_ok_nil (n : nat) (rs : reg -> Z) (g j : list Z) (tr : list event) :
  bus_ok n (mk_world rs [] g j tr).
Proof. intros i _. cbn [bus]. destruct i; reflexivity. Qed.

Lemma mfd_getter_decodes (w : world) :
  bus_ok 2 w -> fst (get_vcom_voltage_mv w) = vcom_field w * 10.
Proof.
  intros H. assert (Hf : 0 < 10 <= 10000) by lia.
  exact (f_equal fst (getter_decodes 10 w Hf H)).
Qed.

Lemma regulator_getter_decodes (w : world) :
  bus_ok 2 w -> fst (sy7636a_get_vcom_voltage_mv w) = vcom_field w * 10000.
Proof.
  intros H. assert (Hf : 0 < 10000 <= 10000) by lia.
  exact (f_equal fst (getter_decodes 10000 w Hf H)).
Qed.

(** C9. With the same contents of the two VCOM adjust registers, and the
    two register reads going through, the getter of the regulator driver
    returns the 9-bit field times 10000 and the getter of the MFD driver
    the same field times 10: the first is 1000 times the second. *)
Theorem regulator_getter_is_1000_times_mfd_getter (w : world) :
  bus_ok 2 w ->
  fst (sy7636a_get_vcom_voltage_mv w) = vcom_field w * 10000 /\
  fst (get_vcom_voltage_mv w) = vcom_field w * 10 /\
  fst (sy7636a_get_vcom_voltage_op w) = 1000 * fst (get_vcom_voltage_mv w).
Proof.
  intros H.
  pose proof (regulator_getter_decodes w H) as Hreg.
  pose proof (mfd_getter_decodes w H) as Hmfd.
  repeat split; try assumption.
  unfold sy7636a_get_vcom_voltage_op. rewrite Hreg, Hmfd. lia.
Qed.

Lemma regulator_getter_witness :
  fst (sy7636a_get_vcom_voltage_mv (world_with 0x2C 0x01 0)) = 3000000 /\
  fst (get_vcom_voltage_mv (world_with 0x2C 0x01 0)) = 3000.
Proof.
  destruct (regulator_getter_is_1000_times_mfd_getter
              (world_with 0x2C 0x01 0) (bus_ok_nil 2 _ _ _ _))
    as (Hreg & Hmfd & _).
  split; [rewrite Hreg | rewrite Hmfd]; reflexivity.
Defined.

(** When a register read fails both getters return the error of the bus,
    the same one. *)
Lemma getters_agree_on_bus_error (w : world) :
  hd 0 (bus w) <> 0 ->
  fst (sy7636a_get_vcom_voltage_mv w) = hd 0 (bus w) /\
  fst (get_vcom_voltage_mv w) = hd 0 (bus w).
Proof.
  intros H. apply Z.eqb_neq in H.
  cbv [sy7636a_get_vcom_voltage_mv get_vcom_voltage_mv Bind
       regmap_read next_bus Return].
  rewrite H. cbn [negb fst]. rewrite H. split; reflexivity.
Qed.

(** ** Setting the VCOM voltage *)

Lemma set_vcom_ok (mv : Z) (w : world) :
  0 <= mv <= 5000 ->
  bus_ok 2 w ->
  set_vcom_voltage_mv mv w =
  (0, mk_world
        (fun r' =>
           if reg_eq_dec r' SY7636A_REG_VCOM_ADJUST_CTRL_H
           then Z.land (Z.shiftr (mv / 10) 8) val_mask
           else if reg_eq_dec r' SY7636A_REG_VCOM_ADJUST_CTRL_L
                then Z.land (mv / 10) val_mask
                else regs w r')
        (tl (tl (bus w))) (pgood_gpio w) (jiffies w)
        ((trace w ++ [RegWrite SY7636A_REG_VCOM_ADJUST_CTRL_L (mv / 10) 0])
           ++ [RegWrite SY7636A_REG_VCOM_ADJUST_CTRL_H
                        (Z.shiftr (mv / 10) 8) 0])).
Proof.
  intros Hmv H. unfold set_vcom_voltage_mv.
  assert (Hq : 0 <= mv / 10 <= 500).
  { split; [apply Z.div_pos; lia | apply Z.div_le_upper_bound; lia]. }
  rewrite (to_uint_small mv) by (change (2 ^ 32) with 4294967296; lia).
  cbv zeta.
  replace ((mv <? 0) || (5000 <? mv)) with false.
  2:{ symmetry. apply orb_false_intro; apply Z.ltb_ge; lia. }
  rewrite (to_uint_small (mv / 10)) by (change (2 ^ 32) with 4294967296; lia).
  rewrite land_1ff, (Z.mod_small (mv / 10) 512) by lia.
  unfold Bind at 1. rewrite (regmap_write_ok 1 _ _ w H).
  change (negb (0 =? 0)) with false. cbv iota beta.
  unfold Bind at 1.
  rewrite (regmap_write_ok 0 _ _ _ (bus_ok_tl 1 w _ _ H)).
  change (negb (0 =? 0)) with false. cbv iota beta.
  reflexivity.
Qed.

Lemma set_vcom_rejects (mv : Z) (w : world) :
  - 2 ^ 31 <= mv < 2 ^ 32 ->
  ~ 0 <= mv <= 5000 ->
  set_vcom_voltage_mv mv w = (- EINVAL, w).
Proof.
  change (2 ^ 31) with 2147483648. change (2 ^ 32) with 4294967296.
  intros Hdom Hout. unfold set_vcom_voltage_mv. cbv zeta.
  assert (Hbig : 5000 < to_uint mv).
  { unfold to_uint. change (2 ^ 32) with 4294967296.
    destruct (Z.lt_ge_cases mv 0) as [Hneg | Hpos].
    - replace mv with (mv + 4294967296 + (-1) * 4294967296) by lia.
      rewrite Z.mod_add, Z.mod_small by lia. lia.
    - rewrite Z.mod_small by lia. lia. }
  apply Z.ltb_lt in Hbig. rewrite Hbig, orb_true_r. reflexivity.
Qed.

Lemma nth_skipn_default (k i : nat) (l : list Z) :
  nth i (skipn k l) 0 = nth (k + i) l 0.
Proof.
  revert l. induction k as [| k IH]; intros l.
  - reflexivity.
  - destruct l as [| a l]; [destruct i; reflexivity | apply IH].
Qed.

Lemma bus_ok_skip (k n : nat) (w w' : world) :
  bus_ok (k + n) w -> bus w' = skipn k (bus w) -> bus_ok n w'.
Proof.
  intros H Hb i Hi. rewrite Hb, nth_skipn_default. apply H. lia.
Qed.

Lemma tl_tl_skipn (l : list Z) : tl (tl l) = skipn 2 l.
Proof. destruct l as [| a [| b l]]; reflexivity. Qed.

(** What the two registers hold after a write of [q], [0 <= q <= 500],
    decodes to [q] again. *)
Lemma vcom_encoding_round_trip (q : Z) :
  0 <= q <= 500 ->
  Z.land
    (Z.lor (Z.land (Z.land q val_mask) val_mask)
           (Z.shiftl (Z.land (Z.land (Z.shiftr q 8) val_mask) val_mask) 8))
    0x1FF = q.
Proof.
  intros Hq. rewrite val_mask_eq, !land_255, !Z.mod_mod by lia.
  rewrite Z.shiftr_div_pow2 by lia. change (2 ^ 8) with 256.
  assert (Hhi : 0 <= q / 256 < 2).
  { split; [apply Z.div_pos; lia | apply Z.div_lt_upper_bound; lia]. }
  rewrite (Z.mod_small (q / 256) 256) by lia.
  rewrite lor_shiftl_8 by (try apply Z.mod_pos_bound; lia).
  replace (q mod 256 + 256 * (q / 256)) with q
    by (pose proof (Z.div_mod q 256); lia).
  rewrite land_1ff. apply Z.mod_small. lia.
Qed.

(** C8. [set_vcom_voltage_mv] takes its argument as an [unsigned int].
    For every magnitude from 0 to 5000, both included, and a bus that
    carries the two writes, it returns 0 after writing the low and then
    the high VCOM register; for every other argument, 5001 and -1 among
    them, it returns -EINVAL and has touched nothing: no register written,
    no bus transaction made. *)
Theorem set_vcom_accepts_0_to_5000 (mv : Z) (w : world) :
  - 2 ^ 31 <= mv < 2 ^ 32 ->
  (0 <= mv <= 5000 -> bus_ok 2 w ->
     fst (set_vcom_voltage_mv mv w) = 0 /\
     trace (snd (set_vcom_voltage_mv mv w)) =
       trace w ++ [RegWrite SY7636A_REG_VCOM_ADJUST_CTRL_L (mv / 10) 0;
                   RegWrite SY7636A_REG_VCOM_ADJUST_CTRL_H
                            (Z.shiftr (mv / 10) 8) 0]) /\
  (~ 0 <= mv <= 5000 -> set_vcom_voltage_mv mv w = (- EINVAL, w)).
Proof.
  intros Hdom. split.
  - intros Hmv H. rewrite (set_vcom_ok mv w Hmv H). cbn [fst snd trace].
    split; [reflexivity |]. rewrite <- app_assoc. reflexivity.
  - intros Hout. apply set_vcom_rejects; assumption.
Qed.

Lemma set_vcom_accepts_witness :
  (fst (set_vcom_voltage_mv 0 idle_world) = 0 /\
   fst (set_vcom_voltage_mv 5000 idle_world) = 0) /\
  (set_vcom_voltage_mv 5001 idle_world = (- EINVAL, idle_world) /\
   set_vcom_voltage_mv (-1) idle_world = (- EINVAL, idle_world)).
Proof.
  assert (Hbus : bus_ok 2 idle_world) by apply bus_ok_nil.
  split; split.
  - apply (set_vcom_accepts_0_to_5000 0 idle_world); [ | | exact Hbus ];
      change (2 ^ 31) with 2147483648; change (2 ^ 32) with 4294967296; lia.
  - apply (set_vcom_accepts_0_to_5000 5000 idle_world); [ | | exact Hbus ];
      change (2 ^ 31) with 2147483648; change (2 ^ 32) with 4294967296; lia.
  - apply (set_vcom_accepts_0_to_5000 5001 idle_world);
      change (2 ^ 31) with 2147483648; change (2 ^ 32) with 4294967296; lia.
  - apply (set_vcom_accepts_0_to_5000 (-1) idle_world);
      change (2 ^ 31) with 2147483648; change (2 ^ 32) with 4294967296; lia.
Defined.

(** [vcom_store] takes the value with the sign of the rail: from -5000 to
    0 it hands the magnitude on, anything else it rejects itself. *)
Lemma vcom_store_range (vcom count : Z) (w : world) :
  - 2 ^ 31 <= vcom < 2 ^ 31 ->
  (- 5000 <= vcom <= 0 ->
   bus_ok 2 w -> fst (vcom_store (0, vcom) count w) = count) /\
  (~ - 5000 <= vcom <= 0 ->
   vcom_store (0, vcom) count w = (- EINVAL, w)).
Proof.
  change (2 ^ 31) with 2147483648. intros Hdom. split.
  - intros Hv H. unfold vcom_store. change (negb (0 =? 0)) with false.
    cbv iota beta.
    replace ((0 <? vcom) || (vcom <? -5000)) with false.
    2:{ symmetry. apply orb_false_intro; apply Z.ltb_ge; lia. }
    rewrite (to_uint_small (- vcom))
      by (change (2 ^ 32) with 4294967296; lia).
    unfold Bind. rewrite set_vcom_ok by (lia || exact H). reflexivity.
  - intros Hv. unfold vcom_store. change (negb (0 =? 0)) with false.
    cbv iota beta.
    replace ((0 <? vcom) || (vcom <? -5000)) with true; [reflexivity |].
    symmetry. apply orb_true_iff.
    destruct (Z.lt_ge_cases 0 vcom) as [Hpos | Hle].
    + left. apply Z.ltb_lt. exact Hpos.
    + right. apply Z.ltb_lt. lia.
Qed.

(** C3. For every request from 0 to 5000 mV, over a bus that carries the
    two writes and the two reads, [set_vcom_voltage_mv] leaves the request
    divided by 10, rounded down, in the 9-bit pair (low byte in the low
    register, ninth bit in the high one), and [get_vcom_voltage_mv] then
    returns that field times 10: the request rounded down to a multiple
    of 10, less than 10 mV below it. *)
Theorem vcom_round_trip (mv : Z) (w : world) :
  0 <= mv <= 5000 ->
  bus_ok 4 w ->
  let w1 := snd (set_vcom_voltage_mv mv w) in
  fst (set_vcom_voltage_mv mv w) = 0 /\
  regs w1 SY7636A_REG_VCOM_ADJUST_CTRL_L = (mv / 10) mod 256 /\
  regs w1 SY7636A_REG_VCOM_ADJUST_CTRL_H = (mv / 10) / 256 /\
  vcom_field w1 = mv / 10 /\
  fst (get_vcom_voltage_mv w1) = 10 * (mv / 10) /\
  0 <= mv - fst (get_vcom_voltage_mv w1) < 10.
Proof.
  intros Hmv H. cbv zeta.
  assert (Hq : 0 <= mv / 10 <= 500).
  { split; [apply Z.div_pos; lia | apply Z.div_le_upper_bound; lia]. }
  rewrite (set_vcom_ok mv w Hmv (bus_ok_weaken 4 2 w ltac:(lia) H)).
  cbn [fst snd].
  set (w1 := mk_world _ _ _ _ _).
  assert (Hfield : vcom_field w1 = mv / 10).
  { unfold vcom_field, w1. cbn [regs].
    destruct (reg_eq_dec SY7636A_REG_VCOM_ADJUST_CTRL_L
                         SY7636A_REG_VCOM_ADJUST_CTRL_H); [discriminate |].
    destruct (reg_eq_dec SY7636A_REG_VCOM_ADJUST_CTRL_L
                         SY7636A_REG_VCOM_ADJUST_CTRL_L); [| congruence].
    destruct (reg_eq_dec SY7636A_REG_VCOM_ADJUST_CTRL_H
                         SY7636A_REG_VCOM_ADJUST_CTRL_H); [| congruence].
    apply vcom_encoding_round_trip. exact Hq. }
  assert (Hbus : bus_ok 2 w1).
  { apply (bus_ok_skip 2 2 w w1 H). apply tl_tl_skipn. }
  rewrite (mfd_getter_decodes w1 Hbus), Hfield.
  repeat split; try lia.
  - unfold w1. cbn [regs].
    destruct (reg_eq_dec SY7636A_REG_VCOM_ADJUST_CTRL_L
                         SY7636A_REG_VCOM_ADJUST_CTRL_H); [discriminate |].
    destruct (reg_eq_dec SY7636A_REG_VCOM_ADJUST_CTRL_L
                         SY7636A_REG_VCOM_ADJUST_CTRL_L); [| congruence].
    rewrite val_mask_eq. apply land_255.
  - unfold w1. cbn [regs].
    destruct (reg_eq_dec SY7636A_REG_VCOM_ADJUST_CTRL_H
                         SY7636A_REG_VCOM_ADJUST_CTRL_H); [| congruence].
    rewrite val_mask_eq, land_255, Z.shiftr_div_pow2 by lia.
    change (2 ^ 8) with 256. apply Z.mod_small.
    split; [apply Z.div_pos; lia | apply Z.div_lt_upper_bound; lia].
  - pose proof (Z.mod_pos_bound mv 10). pose proof (Z.div_mod mv 10). lia.
  - pose proof (Z.mod_pos_bound mv 10). pose proof (Z.div_mod mv 10). lia.
Qed.

Lemma vcom_round_trip_witness :
  fst (get_vcom_voltage_mv (snd (set_vcom_voltage_mv 1234 idle_world)))
  = 1230.
Proof.
  assert (Hmv : 0 <= 1234 <= 5000) by lia.
  destruct (vcom_round_trip 1234 idle_world Hmv (bus_ok_nil 4 _ _ _ _))
    as (_ & _ & _ & _ & Hget & _).
  rewrite Hget. reflexivity.
Defined.

(** ** The fault-flag register *)

Lemma fault_flag_range (w : world) : 0 <= fault_flag w < 256.
Proof.
  unfold fault_flag. rewrite val_mask_eq, land_255.
  apply Z.mod_pos_bound. lia.
Qed.

Lemma land_1_bit0 (b : Z) : Z.land b 0x01 = Z.b2z (Z.testbit b 0).
Proof.
  change 0x01 with (Z.ones 1). rewrite Z.land_ones by lia.
  change (2 ^ 1) with 2. symmetry. apply Z.bit0_mod.
Qed.

(** Every entry of the table fits the sysfs page with its newline. *)
Lemma states_line (n : nat) :
  (n < 16)%nat ->
  exists s, nth_error states n = Some s /\
            nth n states ""%string = s /\
            snprintf_line PAGE_SIZE s
            = (Z.of_nat (String.length s) + 1, (s ++ newline)%string).
Proof.
  intros Hn.
  do 16 (destruct n as [| n];
         [eexists; split; [reflexivity | split; reflexivity] |]).
  lia.
Qed.

(** C6. With the read of the fault-flag register going through,
    [powergood_show] prints ON exactly when bit 0 of the byte is set, and
    [state_show] takes the byte shifted right by one as the index into the
    table of 16 states: at 16 or more it returns -EINVAL and leaves the
    buffer alone, below 16 it prints the entry at that index.  For the
    byte 0b00000011 that is ON and "UVP at VP rail". *)
Theorem fault_flag_decode (w : world) (buf : string) :
  bus_ok 1 w ->
  let b := fault_flag w in
  ARRAY_SIZE_states = 16 /\
  fst (powergood_show buf w) =
    (if Z.testbit b 0 then (3, ("ON" ++ newline)%string)
     else (4, ("OFF" ++ newline)%string)) /\
  (16 <= Z.shiftr b 1 -> fst (state_show buf w) = (- EINVAL, buf)) /\
  (Z.shiftr b 1 < 16 ->
   exists s, nth_error states (Z.to_nat (Z.shiftr b 1)) = Some s /\
             fst (state_show buf w)
             = (Z.of_nat (String.length s) + 1, (s ++ newline)%string)) /\
  (b = 3 ->
   fst (powergood_show buf w) = (3, ("ON" ++ newline)%string) /\
   fst (state_show buf w) = (15, ("UVP at VP rail" ++ newline)%string)).
Proof.
  intros H b.
  assert (Hpg : fst (powergood_show buf w) =
                (if Z.testbit b 0 then (3, ("ON" ++ newline)%string)
                 else (4, ("OFF" ++ newline)%string))).
  { unfold powergood_show, Bind. rewrite (regmap_read_ok 0 _ _ w H).
    change (negb (0 =? 0)) with false. cbv iota beta zeta.
    fold (fault_flag w). fold b. rewrite land_1_bit0.
    destruct (Z.testbit b 0); reflexivity. }
  assert (Hst : fst (state_show buf w) =
                if ARRAY_SIZE_states <=? Z.shiftr b 1 then (- EINVAL, buf)
                else snprintf_line PAGE_SIZE
                       (nth (Z.to_nat (Z.shiftr b 1)) states ""%string)).
  { unfold state_show, Bind. rewrite (regmap_read_ok 0 _ _ w H).
    change (negb (0 =? 0)) with false. cbv iota beta zeta.
    fold (fault_flag w). fold b.
    destruct (ARRAY_SIZE_states <=? Z.shiftr b 1); reflexivity. }
  change ARRAY_SIZE_states with 16 in *.
  split; [reflexivity |]. split; [exact Hpg |]. split; [| split].
  - intros Hbig. rewrite Hst.
    destruct (Z.leb_spec 16 (Z.shiftr b 1)); [reflexivity | lia].
  - intros Hsmall. rewrite Hst.
    destruct (Z.leb_spec 16 (Z.shiftr b 1)); [lia |].
    pose proof (fault_flag_range w) as Hb. fold b in Hb.
    assert (Hidx : (Z.to_nat (Z.shiftr b 1) < 16)%nat).
    { assert (0 <= Z.shiftr b 1) by (apply Z.shiftr_nonneg; lia). lia. }
    destruct (states_line _ Hidx) as (s & Hs & Hnth & Hline).
    exists s. split; [exact Hs |]. rewrite Hnth. exact Hline.
  - intros Hb3. rewrite Hpg, Hst, Hb3. split; reflexivity.
Qed.

Lemma fault_flag_decode_witness :
  fst (powergood_show EmptyString (world_with 0 0 3))
    = (3, ("ON" ++ newline)%string) /\
  fst (state_show EmptyString (world_with 0 0 3))
    = (15, ("UVP at VP rail" ++ newline)%string) /\
  fst (state_show EmptyString (world_with 0 0 0x20))
    = (- EINVAL, EmptyString).
Proof.
  destruct (fault_flag_decode (world_with 0 0 3) EmptyString
              (bus_ok_nil 1 _ _ _ _)) as (_ & _ & _ & _ & H3).
  destruct (fault_flag_decode (world_with 0 0 0x20) EmptyString
              (bus_ok_nil 1 _ _ _ _)) as (_ & _ & Hbig & _).
  destruct (H3 eq_refl) as [Hpg Hst].
  split; [exact Hpg |]. split; [exact Hst |].
  apply Hbig. vm_compute. discriminate.
Defined.

(** ** Polling the power-good line *)

Lemma nth_tl (k : nat) (l : list Z) : nth k (tl l) 0 = nth (S k) l 0.
Proof. destruct l; [destruct k |]; reflexivity. Qed.

Lemma skipn_tl (k : nat) (l : list Z) : skipn k (tl l) = skipn (S k) l.
Proof. destruct l; [apply skipn_nil | reflexivity]. Qed.

Lemma hd_nth0 (l : list Z) : hd 0 l = nth 0 l 0.
Proof. destruct l; reflexivity. Qed.

Lemma pgood_low_tl (n : nat) (w : world) (tr : list event) :
  pgood_low (S n) w ->
  pgood_low n (mk_world (regs w) (bus w) (tl (pgood_gpio w)) (jiffies w) tr).
Proof.
  intros H i Hi. cbn [pgood_gpio]. rewrite nth_tl. apply H. lia.
Qed.

Lemma pgood_low_nil (n : nat) (rs : reg -> Z) (b j : list Z)
    (tr : list event) :
  pgood_low n (mk_world rs b [] j tr).
Proof. intros i _. cbn [pgood_gpio]. destruct i; reflexivity. Qed.

Lemma since_app (w w' : world) (l : list event) :
  trace w' = trace w ++ l -> since w w' = l.
Proof.
  intros H. unfold since. rewrite H, skipn_app, skipn_all, Nat.sub_diag.
  reflexivity.
Qed.

(** One turn of the loop of [sy7636a_get_status]. *)
Lemma get_status_loop_step (n : nat) (ret : Z) (w : world) :
  get_status_loop (S n) ret w =
  let v := hd 0 (pgood_gpio w) in
  let polled tr :=
    mk_world (regs w) (bus w) (tl (pgood_gpio w)) (jiffies w) tr in
  if v <? 0 then
    (v, polled (trace w ++ [DevErr (Failed_to_read_pgood_gpio v)]))
  else if negb (v =? 0) then (ret, polled (trace w))
  else get_status_loop n ret (polled (trace w ++ [Usleep 1000 1500])).
Proof.
  cbn [get_status_loop]. unfold Bind at 1. unfold gpiod_get_value_cansleep.
  cbv zeta. destruct (hd 0 (pgood_gpio w) <? 0); [reflexivity |].
  destruct (negb (hd 0 (pgood_gpio w) =? 0)); reflexivity.
Qed.

(** What [sy7636a_get_status] does: it returns its initial [ret], unless
    a reading of the line is negative after [k] low readings, within the
    budget; then it logs and returns that reading at once. *)
Lemma get_status_loop_spec (n : nat) (ret : Z) (w : world) :
  fst (get_status_loop n ret w) = ret \/
  exists k : nat,
    (k < n)%nat /\ pgood_low k w /\ nth k (pgood_gpio w) 0 < 0 /\
    get_status_loop n ret w =
    (nth k (pgood_gpio w) 0,
     mk_world (regs w) (bus w) (skipn (S k) (pgood_gpio w)) (jiffies w)
       (trace w ++ repeat (Usleep 1000 1500) k
          ++ [DevErr (Failed_to_read_pgood_gpio (nth k (pgood_gpio w) 0))])).
Proof.
  revert w. induction n as [| n IH]; intros w.
  - left. reflexivity.
  - rewrite get_status_loop_step. cbv zeta.
    destruct (Z.ltb_spec (hd 0 (pgood_gpio w)) 0) as [Hneg | Hge].
    + right. exists 0%nat. rewrite <- hd_nth0.
      repeat split; [lia | intros i Hi; lia | exact Hneg].
    + destruct (Z.eqb_spec (hd 0 (pgood_gpio w)) 0) as [Hzero | Hpos];
        cbn [negb].
      * match goal with
        | |- context [get_status_loop n ret ?w1] =>
            destruct (IH w1) as [Hret | (k & Hk & Hlow & Hbad & Hrun)]
        end.
        -- left. exact Hret.
        -- right. exists (S k). cbn [pgood_gpio regs bus jiffies trace] in *.
           rewrite nth_tl in Hbad, Hrun. rewrite skipn_tl in Hrun.
           repeat split; [lia | | exact Hbad |].
           ++ intros [| i] Hi.
              ** rewrite <- hd_nth0. exact Hzero.
              ** specialize (Hlow i ltac:(lia)). cbn [pgood_gpio] in Hlow.
                 rewrite nth_tl in Hlow. exact Hlow.
           ++ rewrite Hrun. cbn [repeat]. rewrite <- app_assoc. reflexivity.
      * left. reflexivity.
Qed.

(** ** Enabling the rail *)

Lemma regmap_update_bits_run (r : reg) (mask val : Z) (w : world) :
  regmap_update_bits r mask val w =
  let ret := hd 0 (bus w) in
  (ret,
   mk_world
     (if ret =? 0
      then fun r' =>
             if reg_eq_dec r' r
             then Z.land (Z.lor (Z.land (regs w r) (Z.lnot mask))
                                (Z.land val mask)) val_mask
             else regs w r'
      else regs w)
     (tl (bus w)) (pgood_gpio w) (jiffies w)
     (trace w ++ [RegUpdateBits r mask val ret])).
Proof.
  unfold regmap_update_bits, Bind, next_bus, emit, get_reg, set_reg, Return.
  cbv zeta. cbn [regs bus pgood_gpio jiffies trace].
  destruct (Z.eqb_spec (hd 0 (bus w)) 0) as [Hz | Hnz]; cbn [negb].
  - rewrite Hz. reflexivity.
  - reflexivity.
Qed.

(** One turn of the loop of [sy7636a_enable_regulator_pgood]. *)
Lemma enable_loop_step (n : nat) (wait_cnt pwr_good : Z) (w : world) :
  enable_loop (S n) wait_cnt pwr_good w =
  let v := hd 0 (pgood_gpio w) in
  let polled tr :=
    mk_world (regs w) (bus w) (tl (pgood_gpio w)) (jiffies w) tr in
  if v <? 0 then
    (inl v, polled (trace w ++ [DevErr (Failed_to_read_pgood_gpio v)]))
  else if negb (v =? 0) then (inr (v, wait_cnt), polled (trace w))
  else enable_loop n (wait_cnt + 1) v
         (polled (trace w ++ [Usleep 1000 1500])).
Proof.
  cbn [enable_loop]. unfold Bind at 1. unfold gpiod_get_value_cansleep.
  cbv zeta. destruct (hd 0 (pgood_gpio w) <? 0); [reflexivity |].
  destruct (negb (hd 0 (pgood_gpio w) =? 0)); reflexivity.
Qed.

(** A line that stays low uses up the budget: the loop ends with
    [pwr_good] zero and [wait_cnt] advanced by the budget, after as many
    sleeps. *)
Lemma enable_loop_low (n : nat) (wait_cnt : Z) (w : world) :
  pgood_low n w ->
  enable_loop n wait_cnt 0 w =
  (inr (0, wait_cnt + Z.of_nat n),
   mk_world (regs w) (bus w) (skipn n (pgood_gpio w)) (jiffies w)
            (trace w ++ repeat (Usleep 1000 1500) n)).
Proof.
  revert wait_cnt w. induction n as [| n IH]; intros wait_cnt w Hlow.
  - cbn [enable_loop repeat skipn]. unfold Return.
    rewrite Z.add_0_r, app_nil_r. destruct w; reflexivity.
  - rewrite enable_loop_step. cbv zeta.
    assert (Hhd : hd 0 (pgood_gpio w) = 0).
    { rewrite hd_nth0. apply Hlow. lia. }
    rewrite Hhd. change (0 <? 0) with false. change (negb (0 =? 0)) with false.
    cbv iota.
    rewrite IH by (apply pgood_low_tl; exact Hlow).
    cbn [regs bus pgood_gpio jiffies trace].
    rewrite skipn_tl, <- app_assoc. cbn [repeat app].
    replace (wait_cnt + 1 + Z.of_nat n) with (wait_cnt + Z.of_nat (S n))
      by lia.
    reflexivity.
Qed.

(** Bit 7 after setting and after clearing the enable mask. *)
Lemma enable_mask_bit (x : Z) :
  (Z.land x enable_mask =? 0) = negb (Z.testbit x 7).
Proof.
  assert (H : Z.land x enable_mask = if Z.testbit x 7 then 128 else 0).
  { apply Z.bits_inj'. intros n Hn.
    rewrite Z.land_spec. change enable_mask with (2 ^ 7).
    rewrite Z.pow2_bits_eqb by lia.
    destruct (Z.eqb_spec 7 n) as [<- | Hne].
    - rewrite andb_true_r. destruct (Z.testbit x 7); reflexivity.
    - rewrite andb_false_r. destruct (Z.testbit x 7).
      + change 128 with (2 ^ 7). rewrite Z.pow2_bits_eqb by lia.
        symmetry. apply Z.eqb_neq. exact Hne.
      + symmetry. apply Z.bits_0. }
  rewrite H. destruct (Z.testbit x 7); reflexivity.
Qed.

Lemma update_bits_bit7 (x val : Z) :
  Z.testbit (Z.land (Z.lor (Z.land x (Z.lnot enable_mask))
                           (Z.land val enable_mask)) val_mask) 7
  = Z.testbit val 7.
Proof.
  rewrite Z.land_spec, Z.lor_spec, !Z.land_spec, Z.lnot_spec by lia.
  change (Z.testbit enable_mask 7) with true.
  change (Z.testbit val_mask 7) with true.
  cbn [negb]. rewrite andb_false_r, !andb_true_r. reflexivity.
Qed.

Lemma existsb_repeat_false {A} (f : A -> bool) (a : A) (n : nat) :
  f a = false -> existsb f (repeat a n) = false.
Proof.
  intros H. induction n as [| n IH]; cbn [repeat existsb].
  - reflexivity.
  - rewrite H, IH. reflexivity.
Qed.

(** The whole timeout path of [sy7636a_enable_regulator_pgood]. *)
Lemma enable_timeout_run (w : world) :
  bus_ok 1 w ->
  pgood_low wait_time w ->
  let r := nth 1 (bus w) 0 in
  let elapsed := ulong_sub (nth 1 (jiffies w) 0) (nth 0 (jiffies w) 0) in
  let on := Z.land (Z.lor (Z.land (regs w enable_reg) (Z.lnot enable_mask))
                          (Z.land enable_mask enable_mask)) val_mask in
  let off := Z.land (Z.lor (Z.land on (Z.lnot enable_mask))
                           (Z.land 0 enable_mask)) val_mask in
  sy7636a_enable_regulator_pgood w =
  (- ETIME,
   mk_world
     (if r =? 0 then upd (upd (regs w) enable_reg on) enable_reg off
      else upd (regs w) enable_reg on)
     (tl (tl (bus w))) (skipn wait_time (pgood_gpio w))
     (tl (tl (jiffies w)))
     (trace w
        ++ [RegUpdateBits enable_reg enable_mask enable_mask 0]
        ++ repeat (Usleep 1000 1500) wait_time
        ++ [DevErr (Power_good_signal_timeout elapsed);
            RegUpdateBits enable_reg enable_mask 0 r;
            Usleep 30000 35000])).
Proof.
  intros Hbus Hlow. cbv zeta.
  unfold sy7636a_enable_regulator_pgood.
  unfold Bind at 1. unfold read_jiffies at 1.
  unfold Bind at 1. unfold regulator_enable_regmap.
  rewrite regmap_update_bits_run. cbv zeta.
  cbn [bus regs pgood_gpio jiffies trace].
  rewrite (bus_ok_hd 0 w Hbus).
  change (0 =? 0) with true. change (negb true) with false. cbv iota.
  unfold Bind at 1. rewrite enable_loop_low.
  2:{ intros i Hi. cbn [pgood_gpio]. apply Hlow. exact Hi. }
  cbn [regs bus pgood_gpio jiffies trace]. cbv iota beta.
  unfold Bind at 1. unfold read_jiffies at 1.
  cbn [regs bus pgood_gpio jiffies trace].
  change (0 =? 0) with true. cbv iota.
  unfold Bind at 1. unfold dev_err at 1, emit at 1.
  cbn [regs bus pgood_gpio jiffies trace].
  unfold Bind at 1. unfold sy7636a_disable_regulator.
  unfold Bind at 1. unfold regulator_disable_regmap.
  rewrite regmap_update_bits_run. cbv zeta.
  cbn [regs bus pgood_gpio jiffies trace].
  unfold Bind at 1. unfold usleep_range at 1, emit at 1.
  cbn [regs bus pgood_gpio jiffies trace]. unfold Return.
  rewrite !hd_nth0, !nth_tl.
  rewrite <- !app_assoc. cbn [app].
  destruct (nth 1 (bus w) 0 =? 0); [| reflexivity].
  destruct (reg_eq_dec enable_reg enable_reg) as [_ | Hne];
    [reflexivity | congruence].
Qed.

Lemma rail_on_upd (rs : reg -> Z) (x val : Z) (b j g : list Z)
    (tr : list event) :
  rail_on
    (mk_world
       (upd rs enable_reg
            (Z.land (Z.lor (Z.land x (Z.lnot enable_mask))
                           (Z.land val enable_mask)) val_mask))
       b g j tr)
  = Z.testbit val 7.
Proof.
  unfold rail_on. cbn [regs]. unfold upd.
  destruct (reg_eq_dec enable_reg enable_reg) as [_ | Hne]; [| congruence].
  rewrite enable_mask_bit, update_bits_bit7. apply negb_involutive.
Qed.

(** C4, as the code has it.  When the enable write goes through and the
    power-good line reads low 500 times, [sy7636a_enable_regulator_pgood]
    sleeps 500 times between the readings, logs the timeout with the
    elapsed time, runs the disable path (the write that clears the enable
    bit, then the sleep of 30 to 35 ms) and returns -ETIME.  The return
    value is the bare error code; the elapsed time is in the log message
    only, and no message of this path tells the number of iterations.  The
    rail is off afterwards when the disable write went through; the result
    of that write is not looked at, so the rail stays on when it did
    not. *)
Theorem enable_timeout_disables_and_returns_ETIME (w : world) :
  bus_ok 1 w ->
  pgood_low wait_time w ->
  let out := sy7636a_enable_regulator_pgood w in
  let r := nth 1 (bus w) 0 in
  let elapsed := ulong_sub (nth 1 (jiffies w) 0) (nth 0 (jiffies w) 0) in
  fst out = - ETIME /\
  since w (snd out) =
    [RegUpdateBits enable_reg enable_mask enable_mask 0]
      ++ repeat (Usleep 1000 1500) wait_time
      ++ [DevErr (Power_good_signal_timeout elapsed);
          RegUpdateBits enable_reg enable_mask 0 r;
          Usleep 30000 35000] /\
  existsb logs_elapsed_and_waits (since w (snd out)) = false /\
  (r = 0 -> rail_on (snd out) = false) /\
  (r <> 0 -> rail_on (snd out) = true).
Proof.
  intros Hbus Hlow. cbv zeta.
  pose proof (enable_timeout_run w Hbus Hlow) as Hrun. cbv zeta in Hrun.
  rewrite Hrun. cbn [fst snd].
  set (w' := mk_world _ _ _ _ _).
  assert (Hsince :
    since w w'
    = [RegUpdateBits enable_reg enable_mask enable_mask 0]
        ++ repeat (Usleep 1000 1500) wait_time
        ++ [DevErr (Power_good_signal_timeout
                      (ulong_sub (nth 1 (jiffies w) 0)
                                 (nth 0 (jiffies w) 0)));
            RegUpdateBits enable_reg enable_mask 0 (nth 1 (bus w) 0);
            Usleep 30000 35000]).
  { apply since_app. reflexivity. }
  split; [reflexivity |]. split; [exact Hsince |]. split; [| split].
  - rewrite Hsince. rewrite !existsb_app.
    rewrite existsb_repeat_false by reflexivity. reflexivity.
  - intros Hr. subst w'. rewrite Hr. change (0 =? 0) with true. cbv iota.
    rewrite rail_on_upd. reflexivity.
  - intros Hr. apply Z.eqb_neq in Hr. subst w'. rewrite Hr.
    rewrite rail_on_upd. reflexivity.
Qed.

Lemma enable_timeout_witness :
  fst (sy7636a_enable_regulator_pgood idle_world) = - ETIME /\
  rail_on (snd (sy7636a_enable_regulator_pgood idle_world)) = false.
Proof.
  destruct (enable_timeout_disables_and_returns_ETIME idle_world
              (bus_ok_nil 1 _ _ _ _) (pgood_low_nil wait_time _ _ _ _))
    as (Hret & _ & _ & Hoff & _).
  split; [exact Hret | apply Hoff; reflexivity].
Defined.

(** C4 as the specification words it fails, in two places.  With a bus
    that carries every transaction and a line that stays low, nothing the
    routine logs or returns tells the number of iterations next to the
    elapsed time.  And with a bus that refuses the disable write, whose
    result the routine ignores, the rail is still on when -ETIME comes
    back. *)
Lemma enable_timeout_not_as_specified :
  ~ (forall w : world,
       bus_ok 2 w ->
       pgood_low wait_time w ->
       let out := sy7636a_enable_regulator_pgood w in
       fst out = - ETIME /\
       existsb is_disable_write (since w (snd out)) = true /\
       existsb logs_elapsed_and_waits (since w (snd out)) = true) /\
  ~ (forall w : world,
       bus_ok 1 w ->
       pgood_low wait_time w ->
       let out := sy7636a_enable_regulator_pgood w in
       fst out = - ETIME /\
       existsb is_disable_write (since w (snd out)) = true /\
       rail_on (snd out) = false).
Proof.
  split; intros H.
  - destruct (H idle_world (bus_ok_nil 2 _ _ _ _)
                (pgood_low_nil wait_time _ _ _ _))
      as (_ & _ & Hlog).
    vm_compute in Hlog. discriminate Hlog.
  - assert (Hbus : bus_ok 1 (mk_world (fun _ => 0) [0; - EIO] [] [] [])).
    { intros i Hi. replace i with 0%nat by lia. reflexivity. }
    destruct (H (mk_world (fun _ => 0) [0; - EIO] [] [] []) Hbus
                (pgood_low_nil wait_time _ _ _ _))
      as (_ & _ & Hoff).
    vm_compute in Hoff. discriminate Hoff.
Qed.

(** The timeout path and a successful enable, evaluated: only the message
    of the successful one carries the number of waits; and a disable write
    that the bus refuses leaves the rail on. *)
Example enable_runs :
  let late := mk_world (fun _ => 0) [] [0; 0; 0; 1] [100; 103] [] in
  let nak := mk_world (fun _ => 0) [0; - EIO] [] [100; 170] [] in
  sy7636a_enable_regulator_pgood late =
    (0, mk_world (upd (fun _ => 0) enable_reg 0x80) [] [] [] 
          [RegUpdateBits enable_reg enable_mask enable_mask 0;
           Usleep 1000 1500; Usleep 1000 1500; Usleep 1000 1500;
           DevDbg (Power_good_OK 3 3)]) /\
  fst (sy7636a_enable_regulator_pgood nak) = - ETIME /\
  rail_on (snd (sy7636a_enable_regulator_pgood nak)) = true /\
  skipn 501 (trace (snd (sy7636a_enable_regulator_pgood nak))) =
    [DevErr (Power_good_signal_timeout 70);
     RegUpdateBits enable_reg enable_mask 0 (- EIO);
     Usleep 30000 35000].
Proof. cbv zeta. repeat split. Qed.

(** * Further properties of the pen driver *)

(** ** The capability query and the probe routine *)

(** X1. [wacom_query_device] returns 0 exactly when [i2c_transfer] reports
    both messages done.  A negative return of the transfer is handed on,
    any other count becomes -EIO, and in both cases the features are left
    as the caller passed them. *)
Theorem query_device_error_paths
    (sgn : bool) (ret : Z) (d : list byte) (f0 : wacom_features) :
  let out := wacom_query_device sgn (ret, d) f0 in
  (fst out = 0 <-> ret = 2) /\
  (ret < 0 -> out = (ret, f0)) /\
  (0 <= ret -> ret <> 2 -> out = (- EIO, f0)) /\
  (ret <> 2 -> fst out < 0 /\ snd out = f0).
Proof.
  cbv zeta. unfold wacom_query_device.
  destruct (Z.ltb_spec ret 0) as [Hneg | Hge].
  - cbn [fst snd]. repeat split; try reflexivity; intros; lia.
  - destruct (Z.eqb_spec ret 2) as [-> | Hne]; cbn [negb fst snd].
    + repeat split; try reflexivity; intros; lia.
    + unfold EIO. repeat split; try reflexivity; intros; try lia.
Qed.

Lemma query_device_ranges
    (sgn : bool) (d : list byte) (f0 : wacom_features) :
  let f := snd (wacom_query_device sgn (2, d) f0) in
  0 <= x_max f < 65536 /\ 0 <= y_max f < 65536 /\
  0 <= pressure_max f < 65536 /\
  0 <= distance_max f < 256 /\ 0 <= distance_physical_max f < 256 /\
  0 <= tilt_x_max f < 65536 /\ 0 <= tilt_y_max f < 65536 /\
  - 128 <= fw_version f < 256 /\
  (sgn = false -> 0 <= fw_version f).
Proof.
  cbv zeta. cbn [wacom_query_device fst snd].
  change (2 <? 0) with false. change (negb (2 =? 2)) with false.
  cbn [snd x_max y_max pressure_max distance_max distance_physical_max
       tilt_x_max tilt_y_max fw_version].
  pose proof (get_unaligned_le16_range d 3).
  pose proof (get_unaligned_le16_range d 5).
  pose proof (get_unaligned_le16_range d 11).
  pose proof (get_unaligned_le16_range d 17).
  pose proof (get_unaligned_le16_range d 19).
  pose proof (u8_at_range d 15). pose proof (u8_at_range d 16).
  assert (Hc : - 128 <= to_char sgn (get_unaligned_le16 d 13) < 256 /\
               (sgn = false -> 0 <= to_char sgn (get_unaligned_le16 d 13))).
  { unfold to_char. change (2 ^ 8) with 256. change (2 ^ 7) with 128.
    pose proof (Z.mod_pos_bound (get_unaligned_le16 d 13) 256).
    destruct sgn; cbn [andb].
    - destruct (Z.leb_spec 128 (get_unaligned_le16 d 13 mod 256));
        split; try lia; discriminate.
    - split; [lia | intros _; lia]. }
  destruct Hc as [Hc1 Hc2].
  repeat split; try lia; exact Hc2.
Qed.

(** X2. Whatever bytes the query read, the maxima it decodes are not
    negative: the 2-byte ones are below 65536, the two distances below
    256, and the firmware version is a [char]. *)
Theorem query_device_bounds
    (sgn : bool) (d : list byte) (f0 : wacom_features) :
  let f := snd (wacom_query_device sgn (2, d) f0) in
  0 <= x_max f < 65536 /\ 0 <= y_max f < 65536 /\
  0 <= pressure_max f < 65536 /\
  0 <= distance_max f < 256 /\ 0 <= distance_physical_max f < 256 /\
  0 <= tilt_x_max f < 65536 /\ 0 <= tilt_y_max f < 65536 /\
  - 128 <= fw_version f < 256 /\
  (sgn = false -> 0 <= fw_version f).
Proof. exact (query_device_ranges sgn d f0). Qed.




(** ** The batch of one interrupt *)

(** The masks of the handler, bit by bit, on a byte. *)
Lemma status_bits (b : byte) :
  let s := Z.of_N (Byte.to_N b) in
  negb (Z.land s 0x01 =? 0) = Z.testbit s 0 /\
  negb (Z.land s 0x02 =? 0) = Z.testbit s 1 /\
  negb (Z.land s 0x04 =? 0) = Z.testbit s 2 /\
  negb (Z.land s 0x10 =? 0) = Z.testbit s 4 /\
  negb (Z.land s 0x20 =? 0) = Z.testbit s 5 /\
  negb (Z.land s 0x0c =? 0) = Z.testbit s 2 || Z.testbit s 3.
Proof. destruct b; repeat split. Qed.

(** X4. The four key reports of a batch, by the bits of the status byte:
    contact is bit 0 or bit 2, the tool key is reported with bit 5, the
    two stylus buttons are bit 1 and bit 4.  The tool latched while out
    of proximity is the rubber when bit 2 or bit 3 is set; bit 3 alone
    therefore selects the rubber without reporting contact. *)
Theorem irq_keys_by_status_bits (wac : wacom_i2c) (bytes : list byte) :
  let d := received wac (RxData bytes) in
  let s := u8_at d 3 in
  let out := wacom_i2c_irq wac (RxData bytes) in
  firstn 4 (snd out) =
    [ EV_KEY BTN_TOUCH (Z.testbit s 0 || Z.testbit s 2);
      EV_KEY (tool (fst out)) (Z.testbit s 5);
      EV_KEY BTN_STYLUS (Z.testbit s 1);
      EV_KEY BTN_STYLUS2 (Z.testbit s 4) ] /\
  (prox wac = false ->
   tool (fst out) = if Z.testbit s 2 || Z.testbit s 3
                    then BTN_TOOL_RUBBER else BTN_TOOL_PEN) /\
  (prox wac = false -> s = 0x08 ->
   firstn 2 (snd out) = [EV_KEY BTN_TOUCH false;
                         EV_KEY BTN_TOOL_RUBBER false]).
Proof.
  cbv zeta. rewrite irq_data. cbv zeta. cbn [fst snd tool firstn].
  set (d := received wac (RxData bytes)).
  destruct (status_bits (nth 3 d x00))
    as (H0 & H1 & H2 & H4 & H5 & Hc).
  fold (u8_at d 3) in H0, H1, H2, H4, H5, Hc.
  assert (Htool : prox wac = false ->
                  (if prox wac then tool wac else classify d) =
                  if Z.testbit (u8_at d 3) 2 || Z.testbit (u8_at d 3) 3
                  then BTN_TOOL_RUBBER else BTN_TOOL_PEN).
  { intros ->. unfold classify, raw_eraser. rewrite Hc. reflexivity. }
  rewrite !bool_to_int_key. unfold input_report_key, in_proximity.
  rewrite H0, H1, H2, H4, H5.
  split; [reflexivity |]. split; [exact Htool |].
  intros Hp Hs. rewrite (Htool Hp), Hs. reflexivity.
Qed.

Lemma to_short_small (v : Z) : 0 <= v < 32768 -> to_short v = v.
Proof.
  intros H. unfold to_short. change (2 ^ 16) with 65536.
  change (2 ^ 15) with 32768. rewrite Z.mod_small by lia.
  destruct (Z.leb_spec 32768 v); [lia | reflexivity].
Qed.

Lemma to_short_spec (v : Z) :
  - 32768 <= to_short v < 32768 /\ to_short v mod 65536 = v mod 65536.
Proof.
  unfold to_short. change (2 ^ 16) with 65536. change (2 ^ 15) with 32768.
  pose proof (Z.mod_pos_bound v 65536).
  destruct (Z.leb_spec 32768 (v mod 65536)).
  - split; [lia |].
    replace (v mod 65536 - 65536) with (v mod 65536 + (-1) * 65536) by lia.
    rewrite Z.mod_add by lia. apply Z.mod_mod. lia.
  - split; [lia | apply Z.mod_mod; lia].
Qed.

(** Two integers of the [short] range that agree modulo 65536 are equal. *)
Lemma short_unique (a b : Z) :
  - 32768 <= a < 32768 -> - 32768 <= b < 32768 ->
  a mod 65536 = b mod 65536 -> a = b.
Proof.
  intros Ha Hb H.
  pose proof (Z.div_mod a 65536). pose proof (Z.div_mod b 65536).
  pose proof (Z.mod_pos_bound a 65536). pose proof (Z.mod_pos_bound b 65536).
  lia.
Qed.

(** X5. The six axis reports of a batch.  X, Y and pressure are the
    unsigned 16-bit fields at bytes 4, 6 and 8; distance is the byte at
    offset 10, from 0 to 255 and never negative; the tilts are the fields
    at bytes 11 and 13 read as two's complement, so a tilt of [t], from
    -32768 to 32767, sent as [t mod 65536] is reported as [t]. *)
Theorem irq_axes_decode (wac : wacom_i2c) (bytes : list byte) :
  let d := received wac (RxData bytes) in
  let evs := snd (wacom_i2c_irq wac (RxData bytes)) in
  let field i := u8_at d i + 256 * u8_at d (S i) in
  reported_abs ABS_X evs = Some (field 4%nat) /\
  reported_abs ABS_Y evs = Some (field 6%nat) /\
  reported_abs ABS_PRESSURE evs = Some (field 8%nat) /\
  reported_abs ABS_DISTANCE evs = Some (u8_at d 10) /\
  (exists tx ty,
     reported_abs ABS_TILT_X evs = Some tx /\
     reported_abs ABS_TILT_Y evs = Some ty /\
     - 32768 <= tx < 32768 /\ - 32768 <= ty < 32768 /\
     (forall t, - 32768 <= t < 32768 ->
                field 11%nat = t mod 65536 -> tx = t) /\
     (forall t, - 32768 <= t < 32768 ->
                field 13%nat = t mod 65536 -> ty = t)).
Proof.
  cbv zeta. rewrite irq_data. cbv zeta. cbn [snd].
  set (d := received wac (RxData bytes)).
  rewrite !get_unaligned_le16_eq.
  rewrite (to_short_small (u8_at d 10))
    by (pose proof (u8_at_range d 10); lia).
  unfold input_report_key, input_report_abs.
  cbn [reported_abs abs_code_eq_dec].
  repeat (split; [reflexivity |]).
  eexists. eexists.
  split; [reflexivity |]. split; [reflexivity |].
  pose proof (to_short_spec (u8_at d 11 + 256 * u8_at d 12)) as [Hr1 Hm1].
  pose proof (to_short_spec (u8_at d 13 + 256 * u8_at d 14)) as [Hr2 Hm2].
  split; [exact Hr1 |]. split; [exact Hr2 |]. split.
  - intros t Ht Hf. apply short_unique; try assumption.
    rewrite Hm1, Hf. apply Z.mod_mod. lia.
  - intros t Ht Hf. apply short_unique; try assumption.
    rewrite Hm2, Hf. apply Z.mod_mod. lia.
Qed.

(** A tilt of -2 on X (bytes FE FF) and of 300 on Y (bytes 2C 01). *)
Example irq_tilt_run :
  let b := repeat x00 11 ++ [xfe; xff; x2c; x01] ++ repeat x00 7 in
  let evs := snd (wacom_i2c_irq wac_zero (RxData b)) in
  reported_abs ABS_TILT_X evs = Some (-2) /\
  reported_abs ABS_TILT_Y evs = Some 300.
Proof. vm_compute. split; reflexivity. Qed.

(** ** Runs of the interrupt handler *)

Lemma irq_run_app (wac : wacom_i2c) (l1 l2 : list i2c_rx) :
  irq_run wac (l1 ++ l2) =
  (fst (irq_run (fst (irq_run wac l1)) l2),
   snd (irq_run wac l1) ++ snd (irq_run (fst (irq_run wac l1)) l2)).
Proof.
  revert wac. induction l1 as [| rx l1 IH]; intros wac.
  - cbn [app irq_run fst snd]. destruct (irq_run wac l2); reflexivity.
  - cbn [app irq_run]. destruct (wacom_i2c_irq wac rx) as [w1 evs].
    rewrite IH. destruct (irq_run w1 l1) as [w2 b1]. cbn [fst snd].
    reflexivity.
Qed.

(** X8. A receive that fails in the middle of a run costs one empty batch
    and nothing else: the batches before and after it, and the state the
    run ends in, are those of the run without it. *)
Theorem failed_receive_is_transparent
    (wac : wacom_i2c) (l1 l2 : list i2c_rx) (e : positive) :
  let mid := fst (irq_run wac l1) in
  fst (irq_run wac (l1 ++ RxFail e :: l2)) = fst (irq_run wac (l1 ++ l2)) /\
  snd (irq_run wac (l1 ++ RxFail e :: l2)) =
    snd (irq_run wac l1) ++ [] :: snd (irq_run mid l2) /\
  snd (irq_run wac (l1 ++ l2)) = snd (irq_run wac l1) ++ snd (irq_run mid l2).
Proof.
  cbv zeta. rewrite !irq_run_app. cbn [fst snd irq_run].
  rewrite irq_fail. destruct (irq_run (fst (irq_run wac l1)) l2).
  cbn [fst snd]. repeat split.
Qed.

Lemma classify_is_tool (d : list byte) : is_tool (classify d) = true.
Proof. unfold classify. destruct (raw_eraser d); reflexivity. Qed.

Lemma irq_keeps_tracker_ok (wac : wacom_i2c) (rx : i2c_rx) :
  tracker_ok wac ->
  tracker_ok (fst (wacom_i2c_irq wac rx)) /\
  (forall f, forallb (declared (wacom_i2c_probe_input f))
                     (snd (wacom_i2c_irq wac rx)) = true).
Proof.
  intros [Hlen Htool]. destruct rx as [e | bytes].
  - rewrite irq_fail. cbn [fst snd forallb]. repeat split; assumption.
  - rewrite irq_data. cbv zeta. cbn [fst snd].
    assert (Hnew : is_tool (if prox wac then tool wac
                            else classify (received wac (RxData bytes)))
                   = true).
    { destruct (prox wac);
        [apply Htool; reflexivity | apply classify_is_tool]. }
    split; [split |].
    + cbn [data]. apply received_length. exact Hlen.
    + intros _. exact Hnew.
    + intros f. unfold input_report_key, input_report_abs.
      destruct (if prox wac then tool wac
                else classify (received wac (RxData bytes)));
        try discriminate Hnew; reflexivity.
Qed.

Lemma irq_latches_tool_step (wac : wacom_i2c) (rx : i2c_rx) :
  tracker_ok wac ->
  snd (wacom_i2c_irq wac rx) = [] \/
  exists t v, reported_tool (snd (wacom_i2c_irq wac rx)) = Some (t, v) /\
              is_tool t = true.
Proof.
  intros [_ Htool]. destruct rx as [e | bytes].
  - left. reflexivity.
  - right. rewrite irq_data. cbv zeta. cbn [snd reported_tool].
    rewrite bool_to_int_key. eexists. eexists. split; [reflexivity |].
    destruct (prox wac); [apply Htool; reflexivity | apply classify_is_tool].
Qed.

(** X7. From the zeroed device structure, whatever the bus delivers and
    however often it fails, the buffer keeps its 22 bytes, the tool key
    reported is always the pen or the rubber, never code 0, and every
    report is for a key or an axis that the probe routine declared. *)
Theorem run_reports_only_declared_tools (rxs : list i2c_rx) :
  let out := irq_run wac_zero rxs in
  tracker_ok (fst out) /\
  Forall (fun evs =>
            (forall f, forallb (declared (wacom_i2c_probe_input f)) evs
                       = true) /\
            (evs = [] \/
             exists t v, reported_tool evs = Some (t, v) /\
                         is_tool t = true))
         (snd out).
Proof.
  cbv zeta.
  assert (Hgen : forall wac, tracker_ok wac ->
            tracker_ok (fst (irq_run wac rxs)) /\
            Forall (fun evs =>
                      (forall f, forallb (declared (wacom_i2c_probe_input f))
                                         evs = true) /\
                      (evs = [] \/
                       exists t v, reported_tool evs = Some (t, v) /\
                                   is_tool t = true))
                   (snd (irq_run wac rxs))).
  { induction rxs as [| rx rest IH]; intros wac Hok.
    - cbn [irq_run fst snd]. split; [exact Hok | constructor].
    - cbn [irq_run].
      destruct (irq_keeps_tracker_ok wac rx Hok) as [Hok1 Hdecl].
      pose proof (irq_latches_tool_step wac rx Hok) as Hrep.
      destruct (wacom_i2c_irq wac rx) as [w1 evs]. cbn [fst snd] in *.
      destruct (IH w1 Hok1) as [Hok2 Hall].
      destruct (irq_run w1 rest) as [w2 batches]. cbn [fst snd] in *.
      split; [exact Hok2 |]. constructor; [| exact Hall].
      split; [exact Hdecl | exact Hrep]. }
  apply Hgen. split; [reflexivity | discriminate].
Qed.

Lemma last_cons (A : Type) (b x : A) (l : list A) :
  last (b :: l) x = last l b.
Proof.
  revert b x. induction l as [| c l IH]; intros b x; [reflexivity |].
  change (last (b :: c :: l) x) with (last (c :: l) x).
  rewrite (IH c x), (IH c b). reflexivity.
Qed.

(** While the reports stay in proximity the tool of the state is the one
    reported, and the state keeps it. *)
Lemma session_holds_tool
    (more : list (list byte)) (wac : wacom_i2c) (rest : list i2c_rx) :
  List.length (data wac) = WACOM_QUERY_SIZE ->
  prox wac = true ->
  Forall (sample_prox true) more ->
  map reported_tool (snd (irq_run wac (map RxData more ++ rest))) =
  repeat (Some (tool wac, true)) (List.length more)
    ++ map reported_tool
         (snd (irq_run (mk_wac (last more (data wac)) true (tool wac))
                       rest)).
Proof.
  revert wac. induction more as [| b more IH]; intros wac Hlen Hprox Hall.
  - cbn [map app repeat List.length last]. rewrite <- Hprox.
    destruct wac; reflexivity.
  - inversion Hall as [| ? ? [Hb Hp] Hrest]; subst.
    cbn [map app]. rewrite (run_step wac b _ Hlen Hb). cbv zeta.
    rewrite Hprox, Hp. rewrite IH; [| exact Hb | reflexivity | exact Hrest].
    cbn [data tool List.length repeat app]. rewrite last_cons. reflexivity.
Qed.

Lemma last_sample_length
    (p : bool) (more : list (list byte)) (b : list byte) :
  List.length b = WACOM_QUERY_SIZE ->
  Forall (sample_prox p) more ->
  List.length (last more b) = WACOM_QUERY_SIZE.
Proof.
  intros Hb Hall. revert b Hb.
  induction Hall as [| c more [Hc _] _ IH]; intros b Hb; [exact Hb |].
  rewrite last_cons. apply IH. exact Hc.
Qed.

(** X6. A proximity session of any length.  From a state out of proximity
    (with its buffer of 22 bytes), a first report in proximity, any number
    of further reports in proximity and a report out of proximity make the
    handler report, for every report of the session, the tool classified
    from the first one, whatever eraser bits the later ones carry, and
    release that same tool at the end. *)
Theorem session_reports_first_classification
    (wac : wacom_i2c) (first final : list byte) (more : list (list byte)) :
  List.length (data wac) = WACOM_QUERY_SIZE ->
  prox wac = false ->
  sample_prox true first ->
  Forall (sample_prox true) more ->
  sample_prox false final ->
  map reported_tool
      (snd (irq_run wac (map RxData (first :: more ++ [final])))) =
  repeat (Some (classify first, true)) (S (List.length more))
    ++ [Some (classify first, false)].
Proof.
  intros Hlen Hprox [Hf Hfp] Hmore [Hl Hlp].
  cbn [map]. rewrite (run_step wac first _ Hlen Hf). cbv zeta.
  rewrite Hprox, Hfp. rewrite map_app.
  rewrite session_holds_tool; [| exact Hf | reflexivity | exact Hmore].
  cbn [data tool prox map].
  rewrite run_step;
    [| cbn [data]; apply (last_sample_length true); assumption
     | exact Hl].
  cbv zeta. cbn [prox tool].
  rewrite Hlp. cbn [irq_run snd map repeat app]. reflexivity.
Qed.

Lemma session_reports_first_classification_witness :
  map reported_tool
      (snd (irq_run wac_zero
              (map RxData (report x28 :: [report x20; report x24]
                             ++ [report x04])))) =
  repeat (Some (classify (report x28), true)) 3
    ++ [Some (classify (report x28), false)].
Proof.
  apply (session_reports_first_classification wac_zero (report x28)
           (report x04) [report x20; report x24]).
  - reflexivity.
  - reflexivity.
  - split; reflexivity.
  - repeat constructor.
  - split; reflexivity.
Defined.

(** * Further properties of the power-rail drivers *)

(** ** The two polling loops *)

Lemma bus_ok_1 (w : world) : bus_ok 1 w <-> hd 0 (bus w) = 0.
Proof.
  split.
  - apply bus_ok_hd.
  - intros H i Hi. replace i with 0%nat by lia. rewrite <- hd_nth0. exact H.
Qed.

(** Either the next [n] readings are all low, or there is a first one
    among them that is not. *)
Lemma first_reading (n : nat) (w : world) :
  pgood_low n w \/
  exists k : nat, (k < n)%nat /\ pgood_low k w /\ nth k (pgood_gpio w) 0 <> 0.
Proof.
  induction n as [| n [Hlow | (k & Hk & Hlow & Hnz)]].
  - left. intros i Hi. lia.
  - destruct (Z.eq_dec (nth n (pgood_gpio w) 0) 0) as [Hz | Hnz].
    + left. intros i Hi.
      destruct (Nat.eq_dec i n) as [-> | Hne]; [exact Hz | apply Hlow; lia].
    + right. exists n. repeat split; [lia | exact Hlow | exact Hnz].
  - right. exists k. repeat split; [lia | exact Hlow | exact Hnz].
Qed.

(** The loop leaves at the first reading that is not low: through
    [goto finish] when it is negative, through [break] when it is
    positive. *)
Lemma enable_loop_first (k n : nat) (wait_cnt : Z) (w : world) :
  (k < n)%nat ->
  pgood_low k w ->
  nth k (pgood_gpio w) 0 <> 0 ->
  let v := nth k (pgood_gpio w) 0 in
  enable_loop n wait_cnt 0 w =
  (if v <? 0 then inl v else inr (v, wait_cnt + Z.of_nat k),
   mk_world (regs w) (bus w) (skipn (S k) (pgood_gpio w)) (jiffies w)
     (trace w ++ repeat (Usleep 1000 1500) k
        ++ if v <? 0 then [DevErr (Failed_to_read_pgood_gpio v)] else [])).
Proof.
  revert n wait_cnt w. induction k as [| k IH]; intros n wait_cnt w Hk Hlow Hnz.
  - destruct n as [| n]; [lia |]. cbv zeta in *.
    rewrite enable_loop_step. cbv zeta. rewrite <- hd_nth0 in *.
    cbn [repeat app]. rewrite Z.add_0_r.
    destruct (hd 0 (pgood_gpio w) <? 0); [reflexivity |].
    apply Z.eqb_neq in Hnz. rewrite Hnz. cbn [negb].
    rewrite app_nil_r. reflexivity.
  - destruct n as [| n]; [lia |]. cbv zeta in *.
    rewrite enable_loop_step. cbv zeta.
    assert (Hhd : hd 0 (pgood_gpio w) = 0).
    { rewrite hd_nth0. apply Hlow. lia. }
    rewrite Hhd. change (0 <? 0) with false. change (negb (0 =? 0)) with false.
    cbv iota.
    rewrite IH;
      [| lia | apply pgood_low_tl; exact Hlow
       | cbn [pgood_gpio]; rewrite nth_tl; exact Hnz].
    cbn [regs bus pgood_gpio jiffies trace].
    rewrite !nth_tl, skipn_tl, <- app_assoc. cbn [repeat app].
    replace (wait_cnt + 1 + Z.of_nat k) with (wait_cnt + Z.of_nat (S k))
      by lia.
    reflexivity.
Qed.

Lemma status_loop_is_enable_loop_gen
    (n : nat) (ret wait_cnt pwr_good : Z) (w : world) :
  get_status_loop n ret w =
  (match fst (enable_loop n wait_cnt pwr_good w) with
   | inl v => v
   | inr _ => ret
   end,
   snd (enable_loop n wait_cnt pwr_good w)).
Proof.
  revert w wait_cnt pwr_good.
  induction n as [| n IH]; intros w wait_cnt pwr_good.
  - reflexivity.
  - rewrite get_status_loop_step, enable_loop_step. cbv zeta.
    destruct (hd 0 (pgood_gpio w) <? 0); [reflexivity |].
    destruct (negb (hd 0 (pgood_gpio w) =? 0)); [reflexivity |].
    apply IH.
Qed.

(** X9. The loop of [sy7636a_get_status] is the loop of
    [sy7636a_enable_regulator_pgood]: from the same world the two make the
    same readings, sleeps and log entries and end in the same world, and
    [sy7636a_get_status] returns the negative reading the other leaves
    with, or 0 when the other ends by [break] or by exhausting the
    budget. *)
Theorem status_loop_is_enable_loop (w : world) :
  sy7636a_get_status w =
  (match fst (enable_loop wait_time 0 0 w) with
   | inl v => v
   | inr _ => 0
   end,
   snd (enable_loop wait_time 0 0 w)).
Proof.
  unfold sy7636a_get_status. apply status_loop_is_enable_loop_gen.
Qed.

(** C10. [sy7636a_get_status] returns 0 whenever none of the readings of
    the power-good line within its budget of 500 is negative, whether the
    line came up or stayed low to the end: when the line reads positive
    after [k] low readings it returns 0 after [k] sleeps, and when it
    stays low it returns 0 after 500 readings and 500 sleeps, so the
    return value does not tell the two apart.  It returns something else
    only when a reading is negative; and whenever a reading is negative
    after [k] low ones within the budget, it logs the failure and returns
    that reading at once, with no further reading or sleep. *)
Theorem get_status_is_0_unless_gpio_fails (w : world) :
  (pgood_readable wait_time w -> fst (sy7636a_get_status w) = 0) /\
  (fst (sy7636a_get_status w) <> 0 ->
   exists k : nat,
     (k < wait_time)%nat /\ pgood_low k w /\
     nth k (pgood_gpio w) 0 < 0 /\
     fst (sy7636a_get_status w) = nth k (pgood_gpio w) 0 /\
     pgood_gpio (snd (sy7636a_get_status w)) = skipn (S k) (pgood_gpio w) /\
     since w (snd (sy7636a_get_status w)) =
       repeat (Usleep 1000 1500) k
         ++ [DevErr (Failed_to_read_pgood_gpio (nth k (pgood_gpio w) 0))]) /\
  (forall k : nat,
     (k < wait_time)%nat -> pgood_low k w -> nth k (pgood_gpio w) 0 < 0 ->
     fst (sy7636a_get_status w) = nth k (pgood_gpio w) 0 /\
     pgood_gpio (snd (sy7636a_get_status w)) = skipn (S k) (pgood_gpio w) /\
     since w (snd (sy7636a_get_status w)) =
       repeat (Usleep 1000 1500) k
         ++ [DevErr (Failed_to_read_pgood_gpio (nth k (pgood_gpio w) 0))]) /\
  (forall k : nat,
     (k < wait_time)%nat -> pgood_low k w -> 0 < nth k (pgood_gpio w) 0 ->
     fst (sy7636a_get_status w) = 0 /\
     pgood_gpio (snd (sy7636a_get_status w)) = skipn (S k) (pgood_gpio w) /\
     since w (snd (sy7636a_get_status w)) = repeat (Usleep 1000 1500) k) /\
  (pgood_low wait_time w ->
   fst (sy7636a_get_status w) = 0 /\
   pgood_gpio (snd (sy7636a_get_status w))
   = skipn wait_time (pgood_gpio w) /\
   since w (snd (sy7636a_get_status w))
   = repeat (Usleep 1000 1500) wait_time).
Proof.
  assert (Hfirst : forall k : nat,
            (k < wait_time)%nat -> pgood_low k w ->
            nth k (pgood_gpio w) 0 <> 0 ->
            sy7636a_get_status w =
            (if nth k (pgood_gpio w) 0 <? 0 then nth k (pgood_gpio w) 0
             else 0,
             mk_world (regs w) (bus w) (skipn (S k) (pgood_gpio w))
               (jiffies w)
               (trace w ++ repeat (Usleep 1000 1500) k
                  ++ if nth k (pgood_gpio w) 0 <? 0
                     then [DevErr (Failed_to_read_pgood_gpio
                                     (nth k (pgood_gpio w) 0))]
                     else []))).
  { intros k Hk Hlow Hnz. unfold sy7636a_get_status.
    rewrite (status_loop_is_enable_loop_gen wait_time 0 0 0 w).
    rewrite (enable_loop_first k wait_time 0 w Hk Hlow Hnz).
    cbn [fst snd]. destruct (nth k (pgood_gpio w) 0 <? 0); reflexivity. }
  split; [| split; [| split; [| split]]].
  - unfold sy7636a_get_status.
    destruct (get_status_loop_spec wait_time 0 w)
      as [Hret | (k & Hk & Hlow & Hbad & Hrun)].
    + intros _. exact Hret.
    + intros Hread. specialize (Hread k Hk). lia.
  - unfold sy7636a_get_status.
    destruct (get_status_loop_spec wait_time 0 w)
      as [Hret | (k & Hk & Hlow & Hbad & Hrun)].
    + intros Hne. contradiction.
    + intros _. exists k. rewrite Hrun. cbn [fst snd pgood_gpio].
      repeat split; try assumption.
      apply since_app. reflexivity.
  - intros k Hk Hlow Hneg.
    rewrite (Hfirst k Hk Hlow ltac:(lia)).
    assert (Hv : (nth k (pgood_gpio w) 0 <? 0) = true)
      by (apply Z.ltb_lt; exact Hneg).
    rewrite Hv. cbn [fst snd pgood_gpio]. repeat split.
    apply since_app. reflexivity.
  - intros k Hk Hlow Hup.
    rewrite (Hfirst k Hk Hlow ltac:(lia)).
    assert (Hv : (nth k (pgood_gpio w) 0 <? 0) = false)
      by (apply Z.ltb_ge; lia).
    rewrite Hv. cbn [fst snd pgood_gpio]. repeat split.
    apply since_app. cbn [trace]. rewrite app_nil_r. reflexivity.
  - intros Hlow. unfold sy7636a_get_status.
    rewrite (status_loop_is_enable_loop_gen wait_time 0 0 0 w).
    rewrite (enable_loop_low wait_time 0 w Hlow).
    cbn [fst snd pgood_gpio]. repeat split.
    apply since_app. reflexivity.
Qed.

(** The line up at the first reading, the line low to the end of the
    budget, and a failing third reading. *)
Example get_status_runs :
  fst (sy7636a_get_status (mk_world (fun _ => 0) [] [1] [] [])) = 0 /\
  fst (sy7636a_get_status idle_world) = 0 /\
  List.length (trace (snd (sy7636a_get_status idle_world))) = 500%nat /\
  sy7636a_get_status (mk_world (fun _ => 0) [] [0; 0; -5; 1] [] []) =
    (-5, mk_world (fun _ => 0) [] [1] []
           [Usleep 1000 1500; Usleep 1000 1500;
            DevErr (Failed_to_read_pgood_gpio (-5))]).
Proof. repeat split; vm_compute; reflexivity. Qed.

(** ** Enabling: the other ways out *)

(** [sy7636a_enable_regulator_pgood] up to the end of its loop, when the
    enable write went through. *)
Lemma enable_unfold (w : world) :
  bus_ok 1 w ->
  sy7636a_enable_regulator_pgood w =
  (r <- enable_loop wait_time 0 0 ;;
   match r with
   | inl ret => Return ret
   | inr (pwr_good, wait_cnt) =>
       t1 <- read_jiffies ;;
       if pwr_good =? 0 then
         dev_err (Power_good_signal_timeout
                    (ulong_sub t1 (nth 0 (jiffies w) 0))) ;;;
         _ <- sy7636a_disable_regulator ;;
         Return (- ETIME)
       else
         dev_dbg (Power_good_OK (ulong_sub t1 (nth 0 (jiffies w) 0))
                                wait_cnt) ;;;
         Return 0
   end)
    (mk_world (regs_on w) (tl (bus w)) (pgood_gpio w) (tl (jiffies w))
              (trace w
                 ++ [RegUpdateBits enable_reg enable_mask enable_mask 0])).
Proof.
  intros Hbus. unfold sy7636a_enable_regulator_pgood.
  unfold Bind at 1. unfold read_jiffies at 1.
  unfold Bind at 1. unfold regulator_enable_regmap.
  rewrite regmap_update_bits_run. cbv zeta.
  cbn [bus regs pgood_gpio jiffies trace].
  rewrite (bus_ok_hd 0 w Hbus).
  change (0 =? 0) with true. change (negb true) with false. cbv iota.
  rewrite hd_nth0. reflexivity.
Qed.

(** The run that ends at the first reading that is not low. *)
Lemma enable_run_first (w : world) (k : nat) :
  bus_ok 1 w ->
  (k < wait_time)%nat ->
  pgood_low k w ->
  nth k (pgood_gpio w) 0 <> 0 ->
  let v := nth k (pgood_gpio w) 0 in
  let elapsed := ulong_sub (nth 1 (jiffies w) 0) (nth 0 (jiffies w) 0) in
  let polls :=
    trace w ++ [RegUpdateBits enable_reg enable_mask enable_mask 0]
      ++ repeat (Usleep 1000 1500) k in
  sy7636a_enable_regulator_pgood w =
  if v <? 0 then
    (v, mk_world (regs_on w) (tl (bus w)) (skipn (S k) (pgood_gpio w))
          (tl (jiffies w))
          (polls ++ [DevErr (Failed_to_read_pgood_gpio v)]))
  else
    (0, mk_world (regs_on w) (tl (bus w)) (skipn (S k) (pgood_gpio w))
          (tl (tl (jiffies w)))
          (polls ++ [DevDbg (Power_good_OK elapsed (Z.of_nat k))])).
Proof.
  intros Hbus Hk Hlow Hnz. cbv zeta.
  rewrite (enable_unfold w Hbus). unfold Bind at 1.
  rewrite (enable_loop_first k);
    [| exact Hk | intros i Hi; apply Hlow; exact Hi
     | cbn [pgood_gpio]; exact Hnz].
  cbv zeta. cbn [regs bus pgood_gpio jiffies trace].
  destruct (nth k (pgood_gpio w) 0 <? 0).
  - unfold Return. rewrite <- !app_assoc. reflexivity.
  - apply Z.eqb_neq in Hnz.
    unfold Bind at 1. unfold read_jiffies at 1.
    cbn [regs bus pgood_gpio jiffies trace]. rewrite Hnz.
    unfold Bind, dev_dbg, emit, Return.
    cbn [regs bus pgood_gpio jiffies trace].
    rewrite hd_nth0, nth_tl, Z.add_0_l, app_nil_r, <- !app_assoc.
    reflexivity.
Qed.

Lemma rail_on_regs_on (w : world) (b g j : list Z) (tr : list event) :
  rail_on (mk_world (regs_on w) b g j tr) = true.
Proof. unfold regs_on. apply rail_on_upd. Qed.

(** X10. When the enable write goes through and the power-good line,
    after [k] low readings with [k] below 500, reads positive,
    [sy7636a_enable_regulator_pgood] returns 0 at once: it has slept [k]
    times, logs the elapsed time with [k] waits, makes no further reading
    and no disable write, and leaves the rail on. *)
Theorem enable_returns_at_first_power_good (w : world) (k : nat) :
  bus_ok 1 w ->
  (k < wait_time)%nat ->
  pgood_low k w ->
  0 < nth k (pgood_gpio w) 0 ->
  let out := sy7636a_enable_regulator_pgood w in
  let elapsed := ulong_sub (nth 1 (jiffies w) 0) (nth 0 (jiffies w) 0) in
  fst out = 0 /\
  since w (snd out) =
    [RegUpdateBits enable_reg enable_mask enable_mask 0]
      ++ repeat (Usleep 1000 1500) k
      ++ [DevDbg (Power_good_OK elapsed (Z.of_nat k))] /\
  pgood_gpio (snd out) = skipn (S k) (pgood_gpio w) /\
  bus (snd out) = tl (bus w) /\
  rail_on (snd out) = true.
Proof.
  intros Hbus Hk Hlow Hup. cbv zeta.
  pose proof (enable_run_first w k Hbus Hk Hlow ltac:(lia)) as Hrun.
  cbv zeta in Hrun.
  assert (Hv : (nth k (pgood_gpio w) 0 <? 0) = false) by (apply Z.ltb_ge; lia).
  rewrite Hv in Hrun. rewrite Hrun. cbn [fst snd pgood_gpio bus].
  repeat split.
  - apply since_app. cbn [trace]. rewrite <- !app_assoc. reflexivity.
  - apply rail_on_regs_on.
Qed.

Lemma enable_returns_at_first_power_good_witness :
  fst (sy7636a_enable_regulator_pgood
         (mk_world (fun _ => 0) [] [0; 0; 1] [100; 103] [])) = 0 /\
  rail_on (snd (sy7636a_enable_regulator_pgood
                  (mk_world (fun _ => 0) [] [0; 0; 1] [100; 103] [])))
  = true.
Proof.
  assert (Hlow : pgood_low 2
                   (mk_world (fun _ => 0) [] [0; 0; 1] [100; 103] [])).
  { intros i Hi. cbn [pgood_gpio].
    destruct i as [| [| i]]; [reflexivity | reflexivity | lia]. }
  assert (Hk : (2 < wait_time)%nat) by (unfold wait_time; lia).
  assert (Hup : 0 < nth 2 (pgood_gpio
                   (mk_world (fun _ => 0) [] [0; 0; 1] [100; 103] [])) 0)
    by (cbn; lia).
  destruct (enable_returns_at_first_power_good
              (mk_world (fun _ => 0) [] [0; 0; 1] [100; 103] []) 2
              (bus_ok_nil 1 _ _ _ _) Hk Hlow Hup)
    as (Hret & _ & _ & _ & Hon).
  split; [exact Hret | exact Hon].
Defined.

(** X11. When the enable write goes through and a reading of the
    power-good line fails, after [k] low readings within the budget, the
    routine logs the failure and returns that negative reading at once.
    It makes no further reading, does not read the clock again, and does
    not run the disable path: the rail stays on. *)
Theorem enable_gpio_failure_leaves_rail_on (w : world) (k : nat) :
  bus_ok 1 w ->
  (k < wait_time)%nat ->
  pgood_low k w ->
  nth k (pgood_gpio w) 0 < 0 ->
  let out := sy7636a_enable_regulator_pgood w in
  let v := nth k (pgood_gpio w) 0 in
  fst out = v /\
  since w (snd out) =
    [RegUpdateBits enable_reg enable_mask enable_mask 0]
      ++ repeat (Usleep 1000 1500) k
      ++ [DevErr (Failed_to_read_pgood_gpio v)] /\
  existsb is_disable_write (since w (snd out)) = false /\
  pgood_gpio (snd out) = skipn (S k) (pgood_gpio w) /\
  bus (snd out) = tl (bus w) /\
  jiffies (snd out) = tl (jiffies w) /\
  rail_on (snd out) = true.
Proof.
  intros Hbus Hk Hlow Hneg. cbv zeta.
  pose proof (enable_run_first w k Hbus Hk Hlow ltac:(lia)) as Hrun.
  cbv zeta in Hrun.
  assert (Hv : (nth k (pgood_gpio w) 0 <? 0) = true) by (apply Z.ltb_lt; lia).
  rewrite Hv in Hrun. rewrite Hrun. cbn [fst snd pgood_gpio bus jiffies].
  assert (Hsince :
    since w
      (mk_world (regs_on w) (tl (bus w)) (skipn (S k) (pgood_gpio w))
         (tl (jiffies w))
         ((trace w ++ [RegUpdateBits enable_reg enable_mask enable_mask 0]
             ++ repeat (Usleep 1000 1500) k)
            ++ [DevErr (Failed_to_read_pgood_gpio
                          (nth k (pgood_gpio w) 0))]))
    = [RegUpdateBits enable_reg enable_mask enable_mask 0]
        ++ repeat (Usleep 1000 1500) k
        ++ [DevErr (Failed_to_read_pgood_gpio (nth k (pgood_gpio w) 0))]).
  { apply since_app. cbn [trace]. rewrite <- !app_assoc. reflexivity. }
  split; [reflexivity |]. split; [exact Hsince |]. split.
  - rewrite Hsince. rewrite !existsb_app.
    rewrite existsb_repeat_false by reflexivity. reflexivity.
  - repeat split. apply rail_on_regs_on.
Qed.

Lemma enable_gpio_failure_witness :
  fst (sy7636a_enable_regulator_pgood
         (mk_world (fun _ => 0) [] [0; -5; 1] [] [])) = -5 /\
  rail_on (snd (sy7636a_enable_regulator_pgood
                  (mk_world (fun _ => 0) [] [0; -5; 1] [] []))) = true.
Proof.
  assert (Hlow : pgood_low 1 (mk_world (fun _ => 0) [] [0; -5; 1] [] [])).
  { intros i Hi. cbn [pgood_gpio]. destruct i; [reflexivity | lia]. }
  assert (Hk : (1 < wait_time)%nat) by (unfold wait_time; lia).
  assert (Hneg : nth 1 (pgood_gpio
                   (mk_world (fun _ => 0) [] [0; -5; 1] [] [])) 0 < 0)
    by (cbn; lia).
  destruct (enable_gpio_failure_leaves_rail_on
              (mk_world (fun _ => 0) [] [0; -5; 1] [] []) 1
              (bus_ok_nil 1 _ _ _ _) Hk Hlow Hneg)
    as (Hret & _ & _ & _ & _ & _ & Hon).
  split; [exact Hret | exact Hon].
Defined.

Lemma enable_write_failure_run (w : world) :
  hd 0 (bus w) <> 0 ->
  sy7636a_enable_regulator_pgood w =
  (hd 0 (bus w),
   mk_world (regs w) (tl (bus w)) (pgood_gpio w) (tl (jiffies w))
     (trace w
        ++ [RegUpdateBits enable_reg enable_mask enable_mask
                          (hd 0 (bus w))])).
Proof.
  intros Hnz. apply Z.eqb_neq in Hnz.
  unfold sy7636a_enable_regulator_pgood.
  unfold Bind at 1. unfold read_jiffies at 1.
  unfold Bind at 1. unfold regulator_enable_regmap.
  rewrite regmap_update_bits_run. cbv zeta.
  cbn [bus regs pgood_gpio jiffies trace].
  rewrite Hnz. reflexivity.
Qed.

(** X12. When the bus refuses the enable write,
    [sy7636a_enable_regulator_pgood] returns the error of the bus at
    once: no reading of the power-good line, no sleep, no log entry, and
    every register as it was. *)
Theorem enable_write_failure_returns_at_once (w : world) :
  hd 0 (bus w) <> 0 ->
  let out := sy7636a_enable_regulator_pgood w in
  fst out = hd 0 (bus w) /\
  since w (snd out) =
    [RegUpdateBits enable_reg enable_mask enable_mask (hd 0 (bus w))] /\
  pgood_gpio (snd out) = pgood_gpio w /\
  regs (snd out) = regs w /\
  rail_on (snd out) = rail_on w.
Proof.
  intros Hnz. cbv zeta. rewrite (enable_write_failure_run w Hnz).
  cbn [fst snd pgood_gpio regs]. repeat split.
  apply since_app. reflexivity.
Qed.

Lemma enable_write_failure_witness :
  fst (sy7636a_enable_regulator_pgood
         (mk_world (fun _ => 0) [- EIO] [1] [100] [])) = - EIO /\
  pgood_gpio (snd (sy7636a_enable_regulator_pgood
                     (mk_world (fun _ => 0) [- EIO] [1] [100] []))) = [1].
Proof.
  assert (Hnz : hd 0 (bus (mk_world (fun _ => 0) [- EIO] [1] [100] []))
                <> 0) by (cbn; discriminate).
  destruct (enable_write_failure_returns_at_once
              (mk_world (fun _ => 0) [- EIO] [1] [100] []) Hnz)
    as (Hret & _ & Hgpio & _).
  split; [exact Hret | exact Hgpio].
Defined.

(** X13. [sy7636a_enable_regulator_pgood] returns 0 exactly when the
    enable write went through and the power-good line read positive at
    one of its 500 readings, every reading before that one being low. *)
Theorem enable_returns_0_iff_power_good (w : world) :
  fst (sy7636a_enable_regulator_pgood w) = 0 <->
  hd 0 (bus w) = 0 /\
  exists k : nat,
    (k < wait_time)%nat /\ pgood_low k w /\ 0 < nth k (pgood_gpio w) 0.
Proof.
  split.
  - intros Hret.
    destruct (Z.eq_dec (hd 0 (bus w)) 0) as [Hbus | Hbus].
    + split; [exact Hbus |]. apply bus_ok_1 in Hbus.
      destruct (first_reading wait_time w)
        as [Hlow | (k & Hk & Hlow & Hnz)].
      * pose proof (enable_timeout_run w Hbus Hlow) as Hrun.
        cbv zeta in Hrun. rewrite Hrun in Hret. discriminate Hret.
      * exists k. repeat split; try assumption.
        pose proof (enable_run_first w k Hbus Hk Hlow Hnz) as Hrun.
        cbv zeta in Hrun. rewrite Hrun in Hret.
        destruct (Z.ltb_spec (nth k (pgood_gpio w) 0) 0) as [Hneg | Hge].
        -- cbn [fst] in Hret. lia.
        -- lia.
    + rewrite (enable_write_failure_run w Hbus) in Hret.
      cbn [fst] in Hret. contradiction.
  - intros (Hbus & k & Hk & Hlow & Hup). apply bus_ok_1 in Hbus.
    pose proof (enable_run_first w k Hbus Hk Hlow ltac:(lia)) as Hrun.
    cbv zeta in Hrun. rewrite Hrun.
    destruct (Z.ltb_spec (nth k (pgood_gpio w) 0) 0); [lia | reflexivity].
Qed.

(** ** Disabling, and asking whether the rail is on *)

Lemma other_bits_kept (x : Z) (n : Z) :
  0 <= n -> n <> 7 ->
  Z.testbit (Z.land (Z.lor (Z.land x (Z.lnot enable_mask))
                           (Z.land 0 enable_mask)) val_mask) n
  = Z.testbit (Z.land x val_mask) n.
Proof.
  intros Hn Hne.
  rewrite !Z.land_spec, Z.lor_spec, !Z.land_spec, Z.lnot_spec by exact Hn.
  change enable_mask with (2 ^ 7). rewrite Z.pow2_bits_eqb by lia.
  assert (H7 : (7 =? n) = false) by (apply Z.eqb_neq; lia).
  rewrite H7, Z.bits_0. cbn [negb andb].
  rewrite andb_true_r, orb_false_r. reflexivity.
Qed.

Lemma disable_run (w : world) :
  sy7636a_disable_regulator w =
  (hd 0 (bus w),
   mk_world
     (if hd 0 (bus w) =? 0
      then upd (regs w) enable_reg
             (Z.land (Z.lor (Z.land (regs w enable_reg)
                                    (Z.lnot enable_mask))
                            (Z.land 0 enable_mask)) val_mask)
      else regs w)
     (tl (bus w)) (pgood_gpio w) (jiffies w)
     ((trace w ++ [RegUpdateBits enable_reg enable_mask 0 (hd 0 (bus w))])
        ++ [Usleep 30000 35000])).
Proof.
  unfold sy7636a_disable_regulator, regulator_disable_regmap.
  unfold Bind at 1. rewrite regmap_update_bits_run. cbv zeta.
  reflexivity.
Qed.

(** X14. [sy7636a_disable_regulator] makes one write, which clears the
    enable bit, then always sleeps 30 to 35 ms, whether the write went
    through or not, and returns what the write returned.  When the write
    went through the rail is off, the other bits of the operation-mode
    register and every other register are as before; when it did not, no
    register has changed. *)
Theorem disable_always_sleeps (w : world) :
  let out := sy7636a_disable_regulator w in
  let r := hd 0 (bus w) in
  fst out = r /\
  since w (snd out) =
    [RegUpdateBits enable_reg enable_mask 0 r; Usleep 30000 35000] /\
  bus (snd out) = tl (bus w) /\
  pgood_gpio (snd out) = pgood_gpio w /\
  (forall r', r' <> enable_reg -> regs (snd out) r' = regs w r') /\
  (r = 0 ->
   rail_on (snd out) = false /\
   forall n, 0 <= n -> n <> 7 ->
     Z.testbit (regs (snd out) enable_reg) n
     = Z.testbit (Z.land (regs w enable_reg) val_mask) n) /\
  (r <> 0 -> regs (snd out) = regs w).
Proof.
  cbv zeta.
  rewrite disable_run. cbn [fst snd bus pgood_gpio regs].
  split; [reflexivity |]. split.
  { apply since_app. cbn [trace]. rewrite <- app_assoc. reflexivity. }
  split; [reflexivity |]. split; [reflexivity |]. split; [| split].
  - intros r' Hne. destruct (hd 0 (bus w) =? 0); [| reflexivity].
    unfold upd. destruct (reg_eq_dec r' enable_reg); [contradiction |].
    reflexivity.
  - intros Hr. rewrite Hr. change (0 =? 0) with true. cbv iota. split.
    + apply rail_on_upd.
    + intros n Hn Hne. unfold upd.
      destruct (reg_eq_dec enable_reg enable_reg) as [_ | Hx];
        [| congruence].
      apply other_bits_kept; assumption.
  - intros Hr. apply Z.eqb_neq in Hr. rewrite Hr. reflexivity.
Qed.

Lemma land_val_mask_enable_mask (x : Z) :
  Z.land (Z.land x val_mask) enable_mask = Z.land x enable_mask.
Proof. rewrite <- Z.land_assoc. reflexivity. Qed.

(** [sy7636a_regulator_is_enabled] reads the enable bit. *)
Lemma is_enabled_reads_rail (w : world) :
  bus_ok 1 w ->
  fst (sy7636a_regulator_is_enabled w) = if rail_on w then 1 else 0.
Proof.
  intros H. unfold sy7636a_regulator_is_enabled, regulator_is_enabled_regmap.
  unfold Bind. rewrite (regmap_read_ok 0 _ _ w H).
  change (negb (0 =? 0)) with false. cbv iota beta.
  rewrite land_val_mask_enable_mask. unfold rail_on, Return. cbn [fst].
  destruct (Z.land (regs w enable_reg) enable_mask =? 0); reflexivity.
Qed.

(** X15. Asking after acting, over a bus that carries both transactions:
    [sy7636a_regulator_is_enabled] returns 0 after
    [sy7636a_disable_regulator], 1 after an enable that saw power-good,
    and 0 again after an enable that timed out. *)
Theorem is_enabled_after_enable_and_disable (w : world) :
  bus_ok 3 w ->
  fst (sy7636a_regulator_is_enabled (snd (sy7636a_disable_regulator w)))
    = 0 /\
  (forall k : nat,
     (k < wait_time)%nat -> pgood_low k w -> 0 < nth k (pgood_gpio w) 0 ->
     fst (sy7636a_regulator_is_enabled
            (snd (sy7636a_enable_regulator_pgood w))) = 1) /\
  (pgood_low wait_time w ->
   fst (sy7636a_regulator_is_enabled
          (snd (sy7636a_enable_regulator_pgood w))) = 0).
Proof.
  intros H.
  assert (H1 : bus_ok 1 w) by (apply (bus_ok_weaken 3 1); [lia | exact H]).
  assert (Hhd : hd 0 (bus w) = 0) by (apply bus_ok_1; exact H1).
  assert (Hn1 : nth 1 (bus w) 0 = 0) by (apply H; lia).
  split; [| split].
  - rewrite disable_run. cbn [snd]. rewrite Hhd.
    change (0 =? 0) with true. cbv iota. rewrite is_enabled_reads_rail.
    + rewrite rail_on_upd. reflexivity.
    + apply (bus_ok_skip 1 1 w);
        [apply (bus_ok_weaken 3 2); [lia | exact H] |].
      cbn [bus]. destruct (bus w); reflexivity.
  - intros k Hk Hlow Hup.
    pose proof (enable_run_first w k H1 Hk Hlow ltac:(lia)) as Hrun.
    cbv zeta in Hrun.
    assert (Hv : (nth k (pgood_gpio w) 0 <? 0) = false)
      by (apply Z.ltb_ge; lia).
    rewrite Hv in Hrun. rewrite Hrun. cbn [snd].
    rewrite is_enabled_reads_rail.
    + rewrite rail_on_regs_on. reflexivity.
    + apply (bus_ok_skip 1 1 w);
        [apply (bus_ok_weaken 3 2); [lia | exact H] |].
      cbn [bus]. destruct (bus w); reflexivity.
  - intros Hlow.
    pose proof (enable_timeout_run w H1 Hlow) as Hrun. cbv zeta in Hrun.
    rewrite Hrun. cbn [snd]. rewrite Hn1. change (0 =? 0) with true.
    cbv iota. rewrite is_enabled_reads_rail.
    + rewrite rail_on_upd. reflexivity.
    + apply (bus_ok_skip 2 1 w); [exact H | apply tl_tl_skipn].
Qed.

Lemma is_enabled_after_witness :
  fst (sy7636a_regulator_is_enabled
         (snd (sy7636a_disable_regulator (world_with 0 0 0)))) = 0 /\
  fst (sy7636a_regulator_is_enabled
         (snd (sy7636a_enable_regulator_pgood idle_world))) = 0.
Proof.
  destruct (is_enabled_after_enable_and_disable (world_with 0 0 0)
              (bus_ok_nil 3 _ _ _ _)) as (Hdis & _).
  destruct (is_enabled_after_enable_and_disable idle_world
              (bus_ok_nil 3 _ _ _ _)) as (_ & _ & Htimeout).
  split; [exact Hdis |].
  apply Htimeout. apply pgood_low_nil.
Defined.

(** X16. [sy7636a_get_status] only reads the power-good line and sleeps:
    registers, bus and clock are as before.  When the line reads positive
    after [k] low readings it returns 0 having slept exactly [k] times
    and read [k + 1] times; when the line stays low it returns 0 after
    500 readings and 500 sleeps. *)
Theorem get_status_polls_until_first_reading (w : world) :
  let out := sy7636a_get_status w in
  (regs (snd out) = regs w /\ bus (snd out) = bus w /\
   jiffies (snd out) = jiffies w) /\
  (pgood_low wait_time w ->
   fst out = 0 /\
   since w (snd out) = repeat (Usleep 1000 1500) wait_time /\
   pgood_gpio (snd out) = skipn wait_time (pgood_gpio w)) /\
  (forall k : nat,
     (k < wait_time)%nat -> pgood_low k w -> 0 < nth k (pgood_gpio w) 0 ->
     fst out = 0 /\
     since w (snd out) = repeat (Usleep 1000 1500) k /\
     pgood_gpio (snd out) = skipn (S k) (pgood_gpio w)).
Proof.
  cbv zeta. unfold sy7636a_get_status.
  rewrite (status_loop_is_enable_loop_gen wait_time 0 0 0 w).
  cbn [fst snd].
  assert (Hlowcase : pgood_low wait_time w ->
            enable_loop wait_time 0 0 w =
            (inr (0, 0 + Z.of_nat wait_time),
             mk_world (regs w) (bus w) (skipn wait_time (pgood_gpio w))
                      (jiffies w)
                      (trace w ++ repeat (Usleep 1000 1500) wait_time)))
    by (apply enable_loop_low).
  split; [| split].
  - destruct (first_reading wait_time w) as [Hlow | (k & Hk & Hlow & Hnz)].
    + rewrite (Hlowcase Hlow). cbn [snd regs bus jiffies]. repeat split.
    + rewrite (enable_loop_first k wait_time 0 w Hk Hlow Hnz).
      cbn [snd regs bus jiffies]. repeat split.
  - intros Hlow. rewrite (Hlowcase Hlow). cbn [fst snd pgood_gpio].
    repeat split. apply since_app. reflexivity.
  - intros k Hk Hlow Hup.
    rewrite (enable_loop_first k wait_time 0 w Hk Hlow ltac:(lia)).
    assert (Hv : (nth k (pgood_gpio w) 0 <? 0) = false)
      by (apply Z.ltb_ge; lia).
    rewrite Hv. cbn [fst snd pgood_gpio]. repeat split.
    apply since_app. cbn [trace]. rewrite app_nil_r. reflexivity.
Qed.

(** ** The VCOM attribute *)

Lemma regmap_write_run (r : reg) (v : Z) (w : world) :
  regmap_write r v w =
  (hd 0 (bus w),
   mk_world (if hd 0 (bus w) =? 0
             then upd (regs w) r (Z.land v val_mask) else regs w)
            (tl (bus w)) (pgood_gpio w) (jiffies w)
            (trace w ++ [RegWrite r v (hd 0 (bus w))])).
Proof.
  unfold regmap_write, Bind, next_bus, emit, set_reg, Return.
  cbn [regs bus pgood_gpio jiffies trace].
  destruct (Z.eqb_spec (hd 0 (bus w)) 0) as [Hz | Hnz]; cbn [negb].
  - rewrite Hz. reflexivity.
  - reflexivity.
Qed.

(** [set_vcom_voltage_mv] for a magnitude in range, whatever the bus
    does. *)
Lemma set_vcom_run (mv : Z) (w : world) :
  0 <= mv <= 5000 ->
  let q := mv / 10 in
  let e1 := hd 0 (bus w) in
  let e2 := nth 1 (bus w) 0 in
  set_vcom_voltage_mv mv w =
  if e1 =? 0 then
    (e2,
     mk_world
       (if e2 =? 0
        then upd (upd (regs w) SY7636A_REG_VCOM_ADJUST_CTRL_L
                      (Z.land q val_mask))
                 SY7636A_REG_VCOM_ADJUST_CTRL_H
                 (Z.land (Z.shiftr q 8) val_mask)
        else upd (regs w) SY7636A_REG_VCOM_ADJUST_CTRL_L
                 (Z.land q val_mask))
       (tl (tl (bus w))) (pgood_gpio w) (jiffies w)
       ((trace w ++ [RegWrite SY7636A_REG_VCOM_ADJUST_CTRL_L q 0])
          ++ [RegWrite SY7636A_REG_VCOM_ADJUST_CTRL_H (Z.shiftr q 8) e2]))
  else
    (e1,
     mk_world (regs w) (tl (bus w)) (pgood_gpio w) (jiffies w)
       (trace w ++ [RegWrite SY7636A_REG_VCOM_ADJUST_CTRL_L q e1])).
Proof.
  intros Hmv. cbv zeta. unfold set_vcom_voltage_mv.
  assert (Hq : 0 <= mv / 10 <= 500).
  { split; [apply Z.div_pos; lia | apply Z.div_le_upper_bound; lia]. }
  rewrite (to_uint_small mv) by (change (2 ^ 32) with 4294967296; lia).
  cbv zeta.
  replace ((mv <? 0) || (5000 <? mv)) with false.
  2:{ symmetry. apply orb_false_intro; apply Z.ltb_ge; lia. }
  rewrite (to_uint_small (mv / 10)) by (change (2 ^ 32) with 4294967296; lia).
  rewrite land_1ff, (Z.mod_small (mv / 10) 512) by lia.
  unfold Bind at 1. rewrite regmap_write_run.
  destruct (Z.eqb_spec (hd 0 (bus w)) 0) as [Hz | Hnz]; cbn [negb].
  - rewrite Hz. unfold Bind at 1. rewrite regmap_write_run.
    cbn [regs bus pgood_gpio jiffies trace]. rewrite hd_nth0, nth_tl.
    destruct (Z.eqb_spec (nth 1 (bus w) 0) 0) as [Hz2 | Hnz2]; cbn [negb].
    + rewrite Hz2. reflexivity.
    + reflexivity.
  - reflexivity.
Qed.

(** X17. Bus failures while setting VCOM, for a magnitude in range.  When
    the first write is refused the error is returned, the second write is
    not tried and no register has changed.  When the second write is
    refused its error is returned with the low register already holding
    the new low byte and the high register still the old value. *)
Theorem set_vcom_write_failures (mv : Z) (w : world) :
  0 <= mv <= 5000 ->
  let out := set_vcom_voltage_mv mv w in
  (hd 0 (bus w) <> 0 ->
   fst out = hd 0 (bus w) /\ regs (snd out) = regs w /\
   since w (snd out)
   = [RegWrite SY7636A_REG_VCOM_ADJUST_CTRL_L (mv / 10) (hd 0 (bus w))]) /\
  (hd 0 (bus w) = 0 -> nth 1 (bus w) 0 <> 0 ->
   fst out = nth 1 (bus w) 0 /\
   regs (snd out) SY7636A_REG_VCOM_ADJUST_CTRL_L = (mv / 10) mod 256 /\
   regs (snd out) SY7636A_REG_VCOM_ADJUST_CTRL_H
   = regs w SY7636A_REG_VCOM_ADJUST_CTRL_H /\
   since w (snd out)
   = [RegWrite SY7636A_REG_VCOM_ADJUST_CTRL_L (mv / 10) 0;
      RegWrite SY7636A_REG_VCOM_ADJUST_CTRL_H (Z.shiftr (mv / 10) 8)
               (nth 1 (bus w) 0)]).
Proof.
  intros Hmv. cbv zeta.
  pose proof (set_vcom_run mv w Hmv) as Hrun. cbv zeta in Hrun.
  rewrite Hrun. split.
  - intros Hnz. apply Z.eqb_neq in Hnz. rewrite Hnz. cbn [fst snd regs].
    repeat split. apply since_app. reflexivity.
  - intros Hz Hnz2. rewrite Hz. change (0 =? 0) with true. cbv iota.
    apply Z.eqb_neq in Hnz2. rewrite Hnz2. cbn [fst snd regs].
    repeat split.
    + unfold upd.
      destruct (reg_eq_dec SY7636A_REG_VCOM_ADJUST_CTRL_L
                           SY7636A_REG_VCOM_ADJUST_CTRL_L); [| congruence].
      rewrite val_mask_eq. apply land_255.
    + apply since_app. cbn [trace]. rewrite <- app_assoc. reflexivity.
Qed.

Lemma set_vcom_write_failures_witness :
  fst (set_vcom_voltage_mv 3000
         (mk_world (fun _ => 7) [0; - EIO] [] [] [])) = - EIO /\
  regs (snd (set_vcom_voltage_mv 3000
               (mk_world (fun _ => 7) [0; - EIO] [] [] [])))
       SY7636A_REG_VCOM_ADJUST_CTRL_L = 44 /\
  regs (snd (set_vcom_voltage_mv 3000
               (mk_world (fun _ => 7) [0; - EIO] [] [] [])))
       SY7636A_REG_VCOM_ADJUST_CTRL_H = 7.
Proof.
  assert (Hmv : 0 <= 3000 <= 5000) by lia.
  destruct (set_vcom_write_failures 3000
              (mk_world (fun _ => 7) [0; - EIO] [] [] []) Hmv)
    as [_ H2].
  destruct (H2 eq_refl ltac:(cbn; discriminate)) as (Hret & Hl & Hh & _).
  split; [exact Hret |]. split; [exact Hl | exact Hh].
Defined.

Lemma set_vcom_field (mv : Z) (w : world) :
  0 <= mv <= 5000 ->
  bus_ok 2 w ->
  vcom_field (snd (set_vcom_voltage_mv mv w)) = mv / 10 /\
  bus (snd (set_vcom_voltage_mv mv w)) = skipn 2 (bus w).
Proof.
  intros Hmv H. rewrite (set_vcom_ok mv w Hmv H). cbn [snd bus].
  split; [| apply tl_tl_skipn].
  unfold vcom_field. cbn [regs].
  destruct (reg_eq_dec SY7636A_REG_VCOM_ADJUST_CTRL_L
                       SY7636A_REG_VCOM_ADJUST_CTRL_H); [discriminate |].
  destruct (reg_eq_dec SY7636A_REG_VCOM_ADJUST_CTRL_L
                       SY7636A_REG_VCOM_ADJUST_CTRL_L); [| congruence].
  destruct (reg_eq_dec SY7636A_REG_VCOM_ADJUST_CTRL_H
                       SY7636A_REG_VCOM_ADJUST_CTRL_H); [| congruence].
  apply vcom_encoding_round_trip.
  split; [apply Z.div_pos; lia | apply Z.div_le_upper_bound; lia].
Qed.

Lemma vcom_store_ok (vcom count : Z) (w : world) :
  - 5000 <= vcom <= 0 ->
  bus_ok 2 w ->
  vcom_store (0, vcom) count w
  = (count, snd (set_vcom_voltage_mv (- vcom) w)).
Proof.
  intros Hv H. unfold vcom_store. change (negb (0 =? 0)) with false.
  cbv iota beta.
  replace ((0 <? vcom) || (vcom <? -5000)) with false.
  2:{ symmetry. apply orb_false_intro; apply Z.ltb_ge; lia. }
  rewrite (to_uint_small (- vcom)) by (change (2 ^ 32) with 4294967296; lia).
  unfold Bind. rewrite set_vcom_ok by (lia || exact H). reflexivity.
Qed.

(** X18. [vcom_store] takes the voltage with the sign of the rail.  A
    text that does not parse gives the error of the parser and touches
    nothing.  A value from -5000 to 0 is stored as its magnitude divided
    by 10 in the 9-bit field, with the two writes and nothing else, and
    the byte count is returned; any other value is rejected with -EINVAL
    before any bus transaction. *)
Theorem vcom_store_accepts_minus_5000_to_0 (vcom count : Z) (w : world) :
  - 2 ^ 31 <= vcom < 2 ^ 31 ->
  (forall e, e <> 0 -> vcom_store (e, vcom) count w = (e, w)) /\
  (- 5000 <= vcom <= 0 -> bus_ok 2 w ->
   fst (vcom_store (0, vcom) count w) = count /\
   vcom_field (snd (vcom_store (0, vcom) count w)) = (- vcom) / 10 /\
   since w (snd (vcom_store (0, vcom) count w))
   = [RegWrite SY7636A_REG_VCOM_ADJUST_CTRL_L ((- vcom) / 10) 0;
      RegWrite SY7636A_REG_VCOM_ADJUST_CTRL_H
               (Z.shiftr ((- vcom) / 10) 8) 0]) /\
  (~ - 5000 <= vcom <= 0 -> vcom_store (0, vcom) count w = (- EINVAL, w)).
Proof.
  intros Hdom. split; [| split].
  - intros e He. apply Z.eqb_neq in He. unfold vcom_store. rewrite He.
    reflexivity.
  - intros Hv H. rewrite (vcom_store_ok vcom count w Hv H). cbn [fst snd].
    split; [reflexivity |]. split.
    + apply set_vcom_field; [lia | exact H].
    + rewrite set_vcom_ok by (lia || exact H). apply since_app.
      cbn [snd trace]. rewrite <- app_assoc. reflexivity.
  - intros Hv. apply (proj2 (vcom_store_range vcom count w Hdom)). exact Hv.
Qed.

Lemma vcom_store_accepts_witness :
  fst (vcom_store (0, -1234) 6 idle_world) = 6 /\
  vcom_field (snd (vcom_store (0, -1234) 6 idle_world)) = 123 /\
  vcom_store (0, 10) 3 idle_world = (- EINVAL, idle_world) /\
  vcom_store (0, -5001) 6 idle_world = (- EINVAL, idle_world).
Proof.
  assert (Hdom : forall v, - 5001 <= v <= 10 -> - 2 ^ 31 <= v < 2 ^ 31).
  { intros v Hv. change (2 ^ 31) with 2147483648. lia. }
  destruct (vcom_store_accepts_minus_5000_to_0 (-1234) 6 idle_world
              (Hdom (-1234) ltac:(lia))) as (_ & Hok & _).
  destruct (Hok ltac:(lia) (bus_ok_nil 2 _ _ _ _)) as (Hret & Hfield & _).
  destruct (vcom_store_accepts_minus_5000_to_0 10 3 idle_world
              (Hdom 10 ltac:(lia))) as (_ & _ & Hpos).
  destruct (vcom_store_accepts_minus_5000_to_0 (-5001) 6 idle_world
              (Hdom (-5001) ltac:(lia))) as (_ & _ & Hlow).
  split; [exact Hret |]. split; [exact Hfield |].
  split; [apply Hpos | apply Hlow]; lia.
Defined.

Lemma mfd_getter_run (w : world) :
  bus_ok 2 w ->
  get_vcom_voltage_mv w =
  (vcom_field w * 10,
   mk_world (regs w) (tl (tl (bus w))) (pgood_gpio w) (jiffies w) (trace w)).
Proof.
  intros H. assert (Hf : 0 < 10 <= 10000) by lia.
  exact (getter_decodes 10 w Hf H).
Qed.

Lemma vcom_line_fits (q : Z) :
  0 <= q < 512 ->
  snprintf_line PAGE_SIZE (format_d (to_int (- (q * 10)))) =
  (Z.of_nat (String.length (format_d (- (q * 10)) ++ newline)),
   (format_d (- (q * 10)) ++ newline)%string).
Proof.
  intros Hq.
  assert (Hall : forallb vcom_line_ok (seq 0 512) = true)
    by (vm_compute; reflexivity).
  rewrite forallb_forall in Hall.
  specialize (Hall (Z.to_nat q)).
  assert (Hin : In (Z.to_nat q) (seq 0 512)) by (apply in_seq; lia).
  specialize (Hall Hin). unfold vcom_line_ok in Hall.
  rewrite Z2Nat.id in Hall by lia. cbv zeta in Hall.
  destruct (snprintf_line PAGE_SIZE (format_d (to_int (- (q * 10)))))
    as [len out].
  apply andb_true_iff in Hall. destruct Hall as [Hlen Hout].
  apply Z.eqb_eq in Hlen. apply String.eqb_eq in Hout.
  rewrite Hlen, Hout. reflexivity.
Qed.

(** X19. Over a bus that carries the two reads, [vcom_show] prints the
    9-bit field of the two registers times 10 with a minus sign, as a
    decimal numeral and a newline, and returns the length of that line.
    Whatever the registers hold, the value printed is a multiple of 10
    from -5110 to 0. *)
Theorem vcom_show_prints_minus_field (buf : string) (w : world) :
  bus_ok 2 w ->
  let v := - (vcom_field w * 10) in
  - 5110 <= v <= 0 /\ v mod 10 = 0 /\
  fst (vcom_show buf w) =
    (Z.of_nat (String.length (format_d v ++ newline)),
     (format_d v ++ newline)%string).
Proof.
  intros H. cbv zeta. pose proof (vcom_field_range w) as Hr.
  split; [lia |]. split.
  - replace (- (vcom_field w * 10)) with ((- vcom_field w) * 10) by lia.
    apply Z.mod_mul. lia.
  - unfold vcom_show. unfold Bind.
    rewrite (mfd_getter_run w H).
    destruct (Z.ltb_spec (vcom_field w * 10) 0); [lia |].
    unfold Return. cbn [fst]. apply vcom_line_fits. exact Hr.
Qed.

Lemma vcom_show_prints_witness :
  fst (vcom_show EmptyString (world_with 0xFF 0x01 0))
  = (6, ("-5110" ++ newline)%string).
Proof.
  destruct (vcom_show_prints_minus_field EmptyString
              (world_with 0xFF 0x01 0) (bus_ok_nil 2 _ _ _ _))
    as (_ & _ & H).
  exact H.
Defined.

(** X20. Storing and then showing, over a bus that carries the four
    transactions: after [vcom_store] of a value from -5000 to 0,
    [vcom_show] prints that value rounded towards zero to a multiple of
    10. *)
Theorem vcom_store_then_show (vcom count : Z) (buf : string) (w : world) :
  - 5000 <= vcom <= 0 ->
  bus_ok 4 w ->
  let shown := - (10 * ((- vcom) / 10)) in
  vcom <= shown <= 0 /\ shown - vcom < 10 /\
  fst (vcom_show buf (snd (vcom_store (0, vcom) count w))) =
    (Z.of_nat (String.length (format_d shown ++ newline)),
     (format_d shown ++ newline)%string).
Proof.
  intros Hv H. cbv zeta.
  assert (H2 : bus_ok 2 w) by (apply (bus_ok_weaken 4 2); [lia | exact H]).
  rewrite (vcom_store_ok vcom count w Hv H2). cbn [snd].
  destruct (set_vcom_field (- vcom) w ltac:(lia) H2) as [Hfield Hbus].
  assert (Hbus2 : bus_ok 2 (snd (set_vcom_voltage_mv (- vcom) w)))
    by (apply (bus_ok_skip 2 2 w); [exact H | exact Hbus]).
  assert (Hq : 0 <= (- vcom) / 10 <= 500).
  { split; [apply Z.div_pos; lia | apply Z.div_le_upper_bound; lia]. }
  pose proof (Z.div_mod (- vcom) 10) as Hdm.
  pose proof (Z.mod_pos_bound (- vcom) 10) as Hmb.
  split; [lia |]. split; [lia |].
  unfold vcom_show. unfold Bind.
  rewrite (mfd_getter_run _ Hbus2), Hfield.
  destruct (Z.ltb_spec ((- vcom) / 10 * 10) 0); [lia |].
  unfold Return. cbn [fst].
  replace (10 * ((- vcom) / 10)) with ((- vcom) / 10 * 10) by lia.
  apply vcom_line_fits. lia.
Qed.

Lemma vcom_store_then_show_witness :
  fst (vcom_show EmptyString (snd (vcom_store (0, -1234) 6 idle_world)))
  = (6, ("-1230" ++ newline)%string).
Proof.
  destruct (vcom_store_then_show (-1234) 6 EmptyString idle_world
              ltac:(lia) (bus_ok_nil 4 _ _ _ _)) as (_ & _ & H).
  exact H.
Defined.

(** ** Bus errors on the read side *)

Lemma regmap_read_run (r : reg) (v0 : Z) (w : world) :
  regmap_read r v0 w =
  ((hd 0 (bus w),
    if hd 0 (bus w) =? 0 then Z.land (regs w r) val_mask else v0),
   mk_world (regs w) (tl (bus w)) (pgood_gpio w) (jiffies w) (trace w)).
Proof.
  unfold regmap_read, Bind, next_bus, get_reg, Return.
  destruct (Z.eqb_spec (hd 0 (bus w)) 0) as [Hz | Hnz]; cbn [negb].
  - rewrite Hz. reflexivity.
  - reflexivity.
Qed.

(** X21. A register read that the bus refuses with a negative error code
    is handed on unchanged by every reader: [state_show] and
    [powergood_show] log it and return it, [vcom_show] and the two VCOM
    getters return it, whether it is the low or the high register that
    cannot be read.  The sysfs buffer is not written and no register
    changes. *)
Theorem read_errors_are_handed_on (buf : string) (w : world) :
  let e1 := hd 0 (bus w) in
  let e2 := nth 1 (bus w) 0 in
  let popped tr :=
    mk_world (regs w) (tl (bus w)) (pgood_gpio w) (jiffies w) tr in
  (e1 < 0 ->
   state_show buf w =
     ((e1, buf), popped (trace w ++ [DevErr Failed_to_read_from_device])) /\
   powergood_show buf w =
     ((e1, buf), popped (trace w ++ [DevErr Failed_to_read_from_device])) /\
   vcom_show buf w = ((e1, buf), popped (trace w)) /\
   get_vcom_voltage_mv w = (e1, popped (trace w)) /\
   sy7636a_get_vcom_voltage_mv w = (e1, popped (trace w))) /\
  (e1 = 0 -> e2 < 0 ->
   fst (vcom_show buf w) = (e2, buf) /\
   fst (get_vcom_voltage_mv w) = e2 /\
   fst (sy7636a_get_vcom_voltage_mv w) = e2 /\
   regs (snd (vcom_show buf w)) = regs w).
Proof.
  cbv zeta. split.
  - intros He.
    assert (Hnz : (hd 0 (bus w) =? 0) = false) by (apply Z.eqb_neq; lia).
    assert (Hlt : (hd 0 (bus w) <? 0) = true) by (apply Z.ltb_lt; lia).
    assert (Hget : get_vcom_voltage_mv w =
                   (hd 0 (bus w),
                    mk_world (regs w) (tl (bus w)) (pgood_gpio w)
                             (jiffies w) (trace w))).
    { unfold get_vcom_voltage_mv. unfold Bind at 1.
      rewrite regmap_read_run, Hnz. reflexivity. }
    repeat split.
    + unfold state_show. unfold Bind at 1.
      rewrite regmap_read_run, Hnz. reflexivity.
    + unfold powergood_show. unfold Bind at 1.
      rewrite regmap_read_run, Hnz. reflexivity.
    + unfold vcom_show. unfold Bind. rewrite Hget, Hlt. reflexivity.
    + exact Hget.
    + unfold sy7636a_get_vcom_voltage_mv. unfold Bind at 1.
      rewrite regmap_read_run, Hnz. reflexivity.
  - intros Hz He.
    assert (Hnz : (nth 1 (bus w) 0 =? 0) = false) by (apply Z.eqb_neq; lia).
    assert (Hlt : (nth 1 (bus w) 0 <? 0) = true) by (apply Z.ltb_lt; lia).
    assert (Hget : get_vcom_voltage_mv w =
                   (nth 1 (bus w) 0,
                    mk_world (regs w) (tl (tl (bus w))) (pgood_gpio w)
                             (jiffies w) (trace w))).
    { unfold get_vcom_voltage_mv. unfold Bind at 1.
      rewrite regmap_read_run, Hz. change (negb (0 =? 0)) with false.
      cbv iota beta. unfold Bind at 1. rewrite regmap_read_run.
      cbn [regs bus pgood_gpio jiffies trace].
      rewrite hd_nth0, nth_tl, Hnz. reflexivity. }
    repeat split.
    + unfold vcom_show. unfold Bind. rewrite Hget, Hlt. reflexivity.
    + rewrite Hget. reflexivity.
    + unfold sy7636a_get_vcom_voltage_mv. unfold Bind at 1.
      rewrite regmap_read_run, Hz. change (negb (0 =? 0)) with false.
      cbv iota beta. unfold Bind at 1. rewrite regmap_read_run.
      cbn [regs bus pgood_gpio jiffies trace].
      rewrite hd_nth0, nth_tl, Hnz. reflexivity.
    + unfold vcom_show. unfold Bind. rewrite Hget, Hlt. reflexivity.
Qed.
